(** * The tailor data model (src/tailor/data_model.py), embedded in Rocq

    [DataModel] is a plain Python class around a pandas [DataFrame] and
    three dictionaries.  The embedding keeps that shape:

    - the frame is an ordered list of (label, values) pairs plus the length
      of its row index;
    - the three dictionaries are finite maps keyed by strings;
    - every method is a state transformer that either returns a value or
      raises; a raised exception keeps the mutations made before it, as in
      Python.

    Parts that live outside the repository are parameters, gathered in the
    class [Engine]: the cell type (float64 in pandas), its NaN and the
    asteval interpreter together with the float cast applied to its result.
    File access of the CSV methods is replaced by the frame pandas parsed.

    Column names and labels are ASCII strings.  Row and column positions
    taken by the pandas calls are natural numbers; the two positions of
    [move_column] go to Python list methods and are integers, negative
    values included. *)

From Stdlib Require Import ZArith Ascii String.
From stdpp Require Import gmap strings list fin_maps pretty.

(** ** Exceptions and results *)

Inductive exn : Set :=
| KeyError
| IndexError
| TypeError
| ValueError
| AttributeError.

Inductive result (A : Type) : Type :=
| Ok (a : A)
| Raise (e : exn).

Arguments Ok {A} a.
Arguments Raise {A} e.

(** What the interpreter hands back once the cast to float went through:
    a scalar, or an array-like (a Series carrying the index of the frame,
    or an ndarray). *)
Inductive output (V : Type) : Type :=
| Scalar (v : V)
| Array (vs : list V).

Arguments Scalar {V} v.
Arguments Array {V} vs.

(** The collaborators of the data model.  [aeval env expression] stands for
    the body of the [try] block of [recalculate_column]: running
    [asteval.Interpreter(usersyms=env)] on the expression (which is [None]
    when the stored expression is Python's [None]) and casting the result to
    float64; [None] means that some exception was raised in that block. *)
Class Engine : Type := {
  value : Type;
  nan : value;
  aeval : gmap string (list value) -> option string -> option (output value)
}.

(** ** Python lists: [pop] and [insert] with integer positions *)

Definition py_pop {A : Type} (l : list A) (i : Z) : result (A * list A) :=
  let j := if (i <? 0)%Z then (i + Z.of_nat (length l))%Z else i in
  if (j <? 0)%Z then Raise IndexError
  else match l !! Z.to_nat j with
       | Some x => Ok (x, delete (Z.to_nat j) l)
       | None => Raise IndexError
       end.

Definition py_insert {A : Type} (l : list A) (i : Z) (x : A) : list A :=
  let j := if (i <? 0)%Z then Z.max 0 (i + Z.of_nat (length l)) else i in
  take (Z.to_nat j) l ++ x :: drop (Z.to_nat j) l.

(** ** Column names: [re.sub(r"\W|^(?=\d)", "_", name)] *)

Definition is_digit_char (c : ascii) : bool :=
  let n := nat_of_ascii c in ((48 <=? n) && (n <=? 57))%nat.

Definition is_word_char (c : ascii) : bool :=
  let n := nat_of_ascii c in
  (is_digit_char c
   || ((65 <=? n) && (n <=? 90))
   || ((97 <=? n) && (n <=? 122))
   || (n =? 95))%nat.

(** The first alternative, [\W], consumes one character that is not a word
    character. *)
Fixpoint replace_non_word (s : string) : string :=
  match s with
  | EmptyString => EmptyString
  | String c s' =>
      String (if is_word_char c then c else "_"%char) (replace_non_word s')
  end.

(** The second alternative matches the empty string at position 0 when a
    digit follows; it is only tried when [\W] did not match there. *)
Definition normalize_name (name : string) : string :=
  match name with
  | String c _ =>
      if is_digit_char c then String "_"%char (replace_non_word name)
      else replace_non_word name
  | EmptyString => EmptyString
  end.

(** [f"col{n}"] *)
Definition col_label (n : nat) : string := "col" +:+ pretty n.

Section Model.
Context {E : Engine}.

(** ** The pandas frame *)

Record DataFrame : Type := {
  nrows : nat;
  cols : list (string * list value)
}.

(** [df.columns] *)
Definition columns (df : DataFrame) : list string := (cols df).*1.

(** [pd.DataFrame()] *)
Definition empty_frame : DataFrame := {| nrows := 0; cols := [] |}.

Definition count_label (l : string) (ls : list string) : nat :=
  length (filter (λ k, k = l) ls).

(** [df.columns.get_loc(l)]: a position only for a label that occurs once;
    for a repeated label pandas returns a slice or a mask, and the slice
    [columns[:idx]] taken from it next raises. *)
Definition get_loc (l : string) (df : DataFrame) : result nat :=
  match list_find (λ k, k = l) (columns df) with
  | None => Raise KeyError
  | Some (i, _) =>
      if decide (count_label l (columns df) = 1) then Ok i
      else Raise TypeError
  end.

(** [df[l]] *)
Definition df_getitem (l : string) (df : DataFrame) : result (list value) :=
  match list_find (λ p : string * list value, p.1 = l) (cols df) with
  | Some (_, p) => Ok p.2
  | None => Raise KeyError
  end.

(** [df.insert(idx, label, np.nan)] *)
Definition df_insert (idx : nat) (label : string) (df : DataFrame)
  : result DataFrame :=
  if decide (label ∈ columns df) then Raise ValueError
  else if decide (idx ≤ length (cols df)) then
    Ok {| nrows := nrows df;
          cols := take idx (cols df)
                    ++ (label, replicate (nrows df) nan) :: drop idx (cols df) |}
  else Raise IndexError.

(** [df.drop(columns=labels)], every label being one of the frame *)
Definition df_drop (labels : list string) (df : DataFrame) : DataFrame :=
  {| nrows := nrows df;
     cols := filter (λ p : string * list value, p.1 ∉ labels) (cols df) |}.

(** [df.reindex(columns=labels)] *)
Definition df_reindex (labels : list string) (df : DataFrame)
  : result DataFrame :=
  if decide (labels = columns df) then Ok df
  else if decide (NoDup (columns df)) then
    Ok {| nrows := nrows df;
          cols := (λ l, (l, match df_getitem l df with
                            | Ok vs => vs
                            | Raise _ => replicate (nrows df) nan
                            end)) <$> labels |}
  else Raise ValueError.

Definition assign_values (l : string) (vs : list value)
    (cs : list (string * list value)) : list (string * list value) :=
  if decide (l ∈ cs.*1)
  then (λ p : string * list value, if decide (p.1 = l) then (l, vs) else p) <$> cs
  else cs ++ [(l, vs)].

(** Pad or cut a column to [n] rows. *)
Definition fit_rows (n : nat) (vs : list value) : list value :=
  take n vs ++ replicate (n - length vs) nan.

(** [df[l] = out]: a scalar is broadcast; an array-like must have the
    length of the index, except that a frame with an empty index takes its
    index from the array. *)
Definition df_setitem (l : string) (out : output value) (df : DataFrame)
  : result DataFrame :=
  match out with
  | Scalar v =>
      Ok {| nrows := nrows df;
            cols := assign_values l (replicate (nrows df) v) (cols df) |}
  | Array vs =>
      if decide (length vs = nrows df) then
        Ok {| nrows := nrows df; cols := assign_values l vs (cols df) |}
      else if decide (nrows df = 0) then
        Ok {| nrows := length vs;
              cols := assign_values l vs
                        (prod_map id (fit_rows (length vs)) <$> cols df) |}
      else Raise ValueError
  end.

(** ** The state of a [DataModel] instance *)

Record DataModel : Type := {
  _data : DataFrame;
  _col_names : gmap string string;
  _calculated_column_expression : gmap string (option string);
  _is_calculated_column_valid : gmap string bool;
  _new_col_num : nat
}.

(** [DataModel()] *)
Definition init : DataModel :=
  {| _data := empty_frame;
     _col_names := ∅;
     _calculated_column_expression := ∅;
     _is_calculated_column_valid := ∅;
     _new_col_num := 0 |}.

(** ** Methods as state transformers *)

Definition M (A : Type) : Type := DataModel -> result A * DataModel.

Definition ret {A : Type} (a : A) : M A := λ s, (Ok a, s).

Definition raise {A : Type} (e : exn) : M A := λ s, (Raise e, s).

Definition bind {A B : Type} (m : M A) (k : A -> M B) : M B :=
  λ s, match m s with
       | (Ok a, s') => k a s'
       | (Raise e, s') => (Raise e, s')
       end.

Definition get : M DataModel := λ s, (Ok s, s).

Definition lift {A : Type} (r : result A) : M A := λ s, (r, s).

Definition set_data (df : DataFrame) : M unit :=
  λ s, (Ok tt,
        {| _data := df;
           _col_names := _col_names s;
           _calculated_column_expression := _calculated_column_expression s;
           _is_calculated_column_valid := _is_calculated_column_valid s;
           _new_col_num := _new_col_num s |}).

Definition set_col_names (m : gmap string string) : M unit :=
  λ s, (Ok tt,
        {| _data := _data s;
           _col_names := m;
           _calculated_column_expression := _calculated_column_expression s;
           _is_calculated_column_valid := _is_calculated_column_valid s;
           _new_col_num := _new_col_num s |}).

Definition set_expressions (m : gmap string (option string)) : M unit :=
  λ s, (Ok tt,
        {| _data := _data s;
           _col_names := _col_names s;
           _calculated_column_expression := m;
           _is_calculated_column_valid := _is_calculated_column_valid s;
           _new_col_num := _new_col_num s |}).

Definition set_valid (m : gmap string bool) : M unit :=
  λ s, (Ok tt,
        {| _data := _data s;
           _col_names := _col_names s;
           _calculated_column_expression := _calculated_column_expression s;
           _is_calculated_column_valid := m;
           _new_col_num := _new_col_num s |}).

Definition set_new_col_num (n : nat) : M unit :=
  λ s, (Ok tt,
        {| _data := _data s;
           _col_names := _col_names s;
           _calculated_column_expression := _calculated_column_expression s;
           _is_calculated_column_valid := _is_calculated_column_valid s;
           _new_col_num := n |}).
End Model.

Declare Scope model_scope.
Delimit Scope model_scope with model.
Notation "'let!' x ':=' c1 'in' c2" := (bind c1 (λ x, c2))
  (at level 10, x pattern, c1 at level 100, c2 at level 200) : model_scope.
Notation "c1 '>>' c2" := (bind c1 (λ _, c2))
  (at level 100, c2 at level 200, right associativity) : model_scope.

Local Open Scope model_scope.

Section Methods.
Context {E : Engine}.

(** A method that [DataModel] does not define: the class has no base
    class, so the attribute lookup on [self] fails.  This is the case of
    [show_status], [beginResetModel] and [endResetModel]. *)
Definition undefined_method (name : string) : M unit := raise AttributeError.

Definition show_status (msg : string) : M unit :=
  undefined_method "show_status".
Definition beginResetModel : M unit := undefined_method "beginResetModel".
Definition endResetModel : M unit := undefined_method "endResetModel".

Definition num_rows : M nat :=
  let! s := get in ret (nrows (_data s)).

Definition num_columns : M nat :=
  let! s := get in ret (length (columns (_data s))).

(** [self._data.iat[row, column] = value] *)
Definition set_value (row column : nat) (v : value) : M unit :=
  let! s := get in
  match cols (_data s) !! column with
  | Some (l, vs) =>
      if decide (row < nrows (_data s)) then
        set_data {| nrows := nrows (_data s);
                    cols := <[column := (l, <[row := v]> vs)]> (cols (_data s)) |}
      else raise IndexError
  | None => raise IndexError
  end.

(** The frame built from [{col: count * [nan] for col in columns}] has no
    row at all when there is no column. *)
Definition insert_rows (row count : nat) : M unit :=
  let! s := get in
  let df := _data s in
  set_data
    {| nrows := match cols df with
                | [] => nrows df
                | _ => nrows df + count
                end;
       cols := prod_map id (λ vs, take row vs ++ replicate count nan ++ drop row vs)
                 <$> cols df |}.

(** [drop(index=range(row, row + count))] raises when one of the positions
    is not in the index. *)
Definition remove_rows (row count : nat) : M unit :=
  let! s := get in
  let df := _data s in
  if decide (count = 0 ∨ row + count ≤ nrows df) then
    set_data
      {| nrows := nrows df - count;
         cols := prod_map id (λ vs, take row vs ++ drop (row + count) vs)
                   <$> cols df |}
  else raise KeyError.

Definition _create_new_column_label : M string :=
  let! s := get in
  set_new_col_num (_new_col_num s + 1) >>
  let! s' := get in
  ret (col_label (_new_col_num s')).

(** [[self._create_new_column_label() for _ in range(count)]] *)
Fixpoint create_labels (count : nat) : M (list string) :=
  match count with
  | 0 => ret []
  | S k =>
      let! l := _create_new_column_label in
      let! ls := create_labels k in
      ret (l :: ls)
  end.

(** The loop of [insert_columns] over [zip(range(column, column + count),
    labels)]. *)
Fixpoint insert_each (idx : nat) (labels : list string) : M unit :=
  match labels with
  | [] => ret tt
  | label :: rest =>
      let! s := get in
      let! df := lift (df_insert idx label (_data s)) in
      set_data df >>
      let! s' := get in
      set_col_names (<[label := label]> (_col_names s')) >>
      insert_each (S idx) rest
  end.

Definition insert_columns (column count : nat) : M (list string) :=
  let! labels := create_labels count in
  insert_each column labels >>
  ret labels.

(** The body is cut short by the [return] under the FIXME: nothing is
    recalculated. *)
Definition recalculate_all_columns : M unit := ret tt.

(** [del self._calculated_column_expression[label]] with the [KeyError]
    swallowed. *)
Definition remove_columns (column count : nat) : M unit :=
  let! s := get in
  let labels := take count (drop column (columns (_data s))) in
  set_data (df_drop labels (_data s)) >>
  let! s' := get in
  set_expressions
    (foldl (λ m l, delete l m) (_calculated_column_expression s') labels) >>
  recalculate_all_columns.

Definition move_column (source dest : Z) : M unit :=
  let! s := get in
  let! popped := lift (py_pop (columns (_data s)) source) in
  let labels := py_insert popped.2 dest popped.1 in
  let! df := lift (df_reindex labels (_data s)) in
  set_data df.

(** The 1-tuple pattern [(label,) = ...] always matches: [insert_columns]
    returns exactly [count] labels. *)
Definition insert_calculated_column (column : nat) : M unit :=
  let! labels := insert_columns column 1 in
  match labels with
  | [label] =>
      let! s := get in
      set_expressions (<[label := None]> (_calculated_column_expression s)) >>
      let! s' := get in
      set_valid (<[label := false]> (_is_calculated_column_valid s'))
  | _ => raise ValueError
  end.

Definition get_column_label (column : nat) : M string :=
  let! s := get in
  match columns (_data s) !! column with
  | Some l => ret l
  | None => raise IndexError
  end.

(** [self._col_names[label]] *)
Definition get_column_name (label : string) : M string :=
  let! s := get in
  match _col_names s !! label with
  | Some n => ret n
  | None => raise KeyError
  end.

Definition normalize_column_name (name : string) : M string :=
  ret (normalize_name name).

(** The body has no [return]: the value of a call is Python's [None],
    written [None] here. *)
Definition rename_column (label name : string) : M (option string) :=
  let! old_name := get_column_name label in
  let! new_name := normalize_column_name name in
  let! s := get in
  set_col_names (<[label := new_name]> (_col_names s)) >>
  ret None.

(** [label in self._calculated_column_expression] *)
Definition is_calculated_column (label : string) : M bool :=
  let! s := get in
  ret (bool_decide (is_Some (_calculated_column_expression s !! label))).

Definition is_column_valid (label : string) : M bool :=
  let! calculated := is_calculated_column label in
  if negb calculated then ret true
  else
    let! s := get in
    match _is_calculated_column_valid s !! label with
    | Some b => ret b
    | None => raise KeyError
    end.

(** A call [self.is_column_valid(kw=arg)]: the only parameter of the
    method is named [label]; any other keyword is rejected when the
    arguments are bound. *)
Definition is_column_valid_kw (kw arg : string) : M bool :=
  if decide (kw = "label") then is_column_valid arg else raise TypeError.

(** The dictionary comprehension of [_get_accessible_columns]. *)
Fixpoint accessible_dict (ks : list string) (acc : gmap string (list value))
  : M (gmap string (list value)) :=
  match ks with
  | [] => ret acc
  | k :: rest =>
      let! valid := is_column_valid_kw "col_name" k in
      if (valid : bool) then
        let! s := get in
        let! vs := lift (df_getitem k (_data s)) in
        accessible_dict rest (<[k := vs]> acc)
      else accessible_dict rest acc
  end.

Definition _get_accessible_columns (col_name : string)
  : M (gmap string (list value)) :=
  let! s := get in
  let! idx := lift (get_loc col_name (_data s)) in
  let accessible_columns := take idx (columns (_data s)) in
  accessible_dict accessible_columns ∅.

Definition recalculate_column (col_name : string) (expression : option string)
  : M bool :=
  let! expression :=
    match expression with
    | None =>
        let! s := get in
        match _calculated_column_expression s !! col_name with
        | Some e => ret e
        | None => raise KeyError
        end
    | Some e => ret (Some e)
    end in
  let! objects := _get_accessible_columns col_name in
  match aeval objects expression with
  | None =>
      let! s := get in
      set_valid (<[col_name := false]> (_is_calculated_column_valid s)) >>
      ret false
  | Some out =>
      let! s := get in
      let! df := lift (df_setitem col_name out (_data s)) in
      set_data df >>
      let! s' := get in
      set_valid (<[col_name := true]> (_is_calculated_column_valid s')) >>
      ret true
  end.

(** The first parameter is used as a label by [get_column_name] and by
    [is_calculated_column]; what is looked up under it, the name, is the
    key under which the expression is stored and recalculated. *)
Definition update_column_expression (col_idx expression : string) : M unit :=
  let! col_name := get_column_name col_idx in
  let! calculated := is_calculated_column col_idx in
  if (calculated : bool) then
    let! s := get in
    set_expressions
      (<[col_name := Some expression]> (_calculated_column_expression s)) >>
    let! ok := recalculate_column col_name (Some expression) in
    if (ok : bool) then show_status "Updated column values." else ret tt
  else ret tt.

(** [self._calculated_column_expression.get(label, None)]: an absent key
    and a stored [None] both come back as [None]. *)
Definition get_column_expression (label : string) : M (option string) :=
  let! s := get in
  ret (default None (_calculated_column_expression s !! label)).

Definition get_column (label : string) : M (list value) :=
  let! s := get in lift (df_getitem label (_data s)).

(** ** Saving, loading and CSV files *)

Record SaveObj : Type := {
  save_data : DataFrame;
  save_calculated_columns : gmap string (option string);
  save_new_col_num : nat
}.

Definition load_state_from_obj (save_obj : SaveObj) : M unit :=
  beginResetModel >>
  set_data (save_data save_obj) >>
  set_expressions (save_calculated_columns save_obj) >>
  set_new_col_num (save_new_col_num save_obj) >>
  endResetModel >>
  recalculate_all_columns.

(** [import_data] is what [_read_csv_into_dataframe] returns for the file:
    the parsed frame, its column names already normalized. *)
Definition read_csv (import_data : DataFrame) : M unit :=
  beginResetModel >>
  set_data import_data >>
  set_expressions ∅ >>
  endResetModel.

(** [pd.concat([import_data, old_data], axis="columns")] followed by
    [.iloc[:len(import_data)]]: the columns of both frames side by side,
    each with the rows of the imported frame. *)
Definition concat_and_cut (import_data old_data : DataFrame) : DataFrame :=
  {| nrows := nrows import_data;
     cols := cols import_data
               ++ (prod_map id (fit_rows (nrows import_data)) <$> cols old_data) |}.

Definition read_and_concat_csv (import_data : DataFrame) : M unit :=
  beginResetModel >>
  let! s := get in
  let old_data := df_drop (columns import_data) (_data s) in
  let final_data := concat_and_cut import_data old_data in
  set_data final_data >>
  endResetModel >>
  recalculate_all_columns.
End Methods.

Section Operations.
Context {E : Engine}.

(** ** Sequences of calls

    The state-changing methods of the class, as one type of calls; [step]
    runs a call and keeps the state it leaves behind, whether the call
    returned or raised. *)
Inductive op : Type :=
| OpSetValue (row column : nat) (v : value)
| OpInsertRows (row count : nat)
| OpRemoveRows (row count : nat)
| OpInsertColumns (column count : nat)
| OpRemoveColumns (column count : nat)
| OpMoveColumn (source dest : Z)
| OpInsertCalculatedColumn (column : nat)
| OpRenameColumn (label name : string)
| OpUpdateColumnExpression (col_idx expression : string)
| OpRecalculateColumn (col_name : string) (expression : option string)
| OpRecalculateAllColumns
| OpLoadStateFromObj (save_obj : SaveObj)
| OpReadCsv (import_data : DataFrame)
| OpReadAndConcatCsv (import_data : DataFrame).

Definition discard {A : Type} (m : M A) : M unit := let! _ := m in ret tt.

Definition call (o : op) : M unit :=
  match o with
  | OpSetValue row column v => set_value row column v
  | OpInsertRows row count => insert_rows row count
  | OpRemoveRows row count => remove_rows row count
  | OpInsertColumns column count => discard (insert_columns column count)
  | OpRemoveColumns column count => remove_columns column count
  | OpMoveColumn source dest => move_column source dest
  | OpInsertCalculatedColumn column => insert_calculated_column column
  | OpRenameColumn label name => discard (rename_column label name)
  | OpUpdateColumnExpression col_idx expression =>
      update_column_expression col_idx expression
  | OpRecalculateColumn col_name expression =>
      discard (recalculate_column col_name expression)
  | OpRecalculateAllColumns => recalculate_all_columns
  | OpLoadStateFromObj save_obj => load_state_from_obj save_obj
  | OpReadCsv import_data => read_csv import_data
  | OpReadAndConcatCsv import_data => read_and_concat_csv import_data
  end.

Definition step (s : DataModel) (o : op) : DataModel := (call o s).2.

Definition run (os : list op) (s : DataModel) : DataModel := foldl step s os.

(** Abbreviations for the states that [recalculate_column] leaves behind,
    and for the expression it evaluates: the argument, or the stored
    expression when the argument is [None] ([None] when nothing is stored
    under the key). *)
Definition with_valid (col_name : string) (b : bool) (s : DataModel)
  : DataModel :=
  (set_valid (<[col_name := b]> (_is_calculated_column_valid s)) s).2.

Definition with_data (df : DataFrame) (s : DataModel) : DataModel :=
  (set_data df s).2.

Definition expression_used (col_name : string) (expression : option string)
    (s : DataModel) : option (option string) :=
  match expression with
  | Some e => Some (Some e)
  | None => _calculated_column_expression s !! col_name
  end.

(** The labels handed out so far: [col1] ... [col<n>]. *)
Definition minted (n : nat) (l : string) : Prop :=
  ∃ k, 1 ≤ k ≤ n ∧ l = col_label k.

(** From [s] to [s']: the counter did not go down, and a label of the frame
    that was not there before was made from a counter value above the old
    one. *)
Definition grows (s s' : DataModel) : Prop :=
  _new_col_num s ≤ _new_col_num s'
  ∧ ∀ l, l ∈ columns (_data s') → l ∉ columns (_data s) →
         ∃ k, _new_col_num s < k ≤ _new_col_num s' ∧ l = col_label k.

(** The invariant on labels: the columns of the frame carry pairwise
    distinct labels, each one handed out by the counter. *)
Definition labels_ok (s : DataModel) : Prop :=
  NoDup (columns (_data s))
  ∧ ∀ l, l ∈ columns (_data s) → minted (_new_col_num s) l.
End Operations.

(** ** A small interpreter for the examples

    Cells are [option Z], with [None] for NaN.  The interpreter knows two
    kinds of expression, on which it agrees with asteval: a name bound in
    the environment evaluates to the bound column, and an unsigned decimal
    literal to that number.  Everything else fails. *)

Fixpoint parse_digits (s : string) (acc : nat) : option nat :=
  match s with
  | EmptyString => Some acc
  | String c s' =>
      if is_digit_char c
      then parse_digits s' (10 * acc + (nat_of_ascii c - 48))
      else None
  end.

Definition parse_literal (s : string) : option nat :=
  match s with
  | EmptyString => None
  | _ => parse_digits s 0
  end.

Definition toy_aeval (env : gmap string (list (option Z)))
    (expression : option string) : option (output (option Z)) :=
  match expression with
  | None => None
  | Some e =>
      match env !! e with
      | Some vs => Some (Array vs)
      | None =>
          match parse_literal e with
          | Some n => Some (Scalar (Some (Z.of_nat n)))
          | None => None
          end
      end
  end.

Definition toy : Engine :=
  {| value := option Z; nan := None; aeval := toy_aeval |}.

Definition floats (zs : list Z) : list (@value toy) := Some <$> zs.

(** The fixture [bare_bones_data] of tests/test_data_model.py. *)
Definition bare_bones_data : @DataModel toy :=
  {| _data :=
       {| nrows := 5;
          cols := [("col1", floats [1; 2; 3; 4; 5]);
                   ("col2", floats [6; 7; 8; 9; 10]);
                   ("col3", floats [11; 12; 13; 14; 15])]%Z |};
     _col_names := {[ "col2" := "y"; "col3" := "z"; "col1" := "x" ]};
     _calculated_column_expression := {[ "col3" := Some "col2 + 5" ]};
     _is_calculated_column_valid := {[ "col3" := true ]};
     _new_col_num := 3 |}.

(** The fixture [calc_model] of tests/test_data_model.py. *)
Definition calc_model : @DataModel toy :=
  {| _data :=
       {| nrows := 3;
          cols := (λ k, (k, floats [1; 2; 3]%Z))
                    <$> ["col1"; "col2"; "col3"; "col4"; "col5"] |};
     _col_names :=
       {[ "col1" := "x"; "col2" := "y"; "col3" := "z"; "col4" := "t";
          "col5" := "u" ]};
     _calculated_column_expression :=
       {[ "col1" := Some "3.14"; "col2" := Some "col1 ** 2";
          "col4" := Some "sqrt(col2)"; "col5" := Some EmptyString ]};
     _is_calculated_column_valid :=
       {[ "col1" := true; "col2" := true; "col4" := true; "col5" := false ]};
     _new_col_num := 0 |}.

(** Two calculated columns over two rows, built through the methods alone:
    [col1] holds the constant 1, [col2] is given the expression [col1]. *)
Definition two_calculated : @DataModel toy :=
  run [OpInsertCalculatedColumn 0; OpInsertCalculatedColumn 1;
       OpInsertRows 0 2;
       OpUpdateColumnExpression "col1" "1";
       OpUpdateColumnExpression "col2" "col1"] init.

(** Two calculated columns that agree with their expressions: [col1] is the
    constant 1 and [col2] copies [col1]; both are marked valid. *)
Definition both_valid : @DataModel toy :=
  {| _data :=
       {| nrows := 2;
          cols := [("col1", floats [1; 1]); ("col2", floats [1; 1])]%Z |};
     _col_names := {[ "col1" := "col1"; "col2" := "col2" ]};
     _calculated_column_expression :=
       {[ "col1" := Some "1"; "col2" := Some "col1" ]};
     _is_calculated_column_valid := {[ "col1" := true; "col2" := true ]};
     _new_col_num := 2 |}.

(** A parsed CSV file of four rows with the columns [col1], [t], [col3]. *)
Definition csv_frame : @DataFrame toy :=
  {| nrows := 4;
     cols := [("col1", floats [1; 3; 5; 7]);
              ("t", floats [1; 2; 3; 4]);
              ("col3", floats [0; 1; 2; 3])]%Z |}.


(** ** Further methods and helpers *)

Section MoreMethods.
Context {E : Engine}.

(** [self._data.iat[row, column]] *)
Definition get_value (row column : nat) : M value :=
  let! s := get in
  match cols (_data s) !! column with
  | Some (_, vs) =>
      if decide (row < nrows (_data s)) then
        match vs !! row with
        | Some v => ret v
        | None => raise IndexError
        end
      else raise IndexError
  | None => raise IndexError
  end.


(** The model with another value of the counter. *)
Definition with_counter (n : nat) (s : DataModel) : DataModel :=
  (set_new_col_num n s).2.

(** The columns that [insert_columns] adds: all NaN, one value per row. *)
Definition nan_columns (labels : list string) (df : DataFrame)
  : list (string * list value) :=
  (λ l, (l, replicate (nrows df) nan)) <$> labels.

(** The labels that the counter hands out next. *)
Definition next_labels (count : nat) (s : DataModel) : list string :=
  col_label <$> seq (S (_new_col_num s)) count.

(** Every column holds one value per row of the index. *)
Definition rectangular (df : DataFrame) : Prop :=
  Forall (λ p : string * list value, length p.2 = nrows df) (cols df).

(** Every label of the frame has a name. *)
Definition named (s : DataModel) : Prop :=
  Forall (λ l, is_Some (_col_names s !! l)) (columns (_data s)).
End MoreMethods.

(** A name made of word characters only that does not start with a digit. *)
Fixpoint all_word_chars (s : string) : bool :=
  match s with
  | EmptyString => true
  | String c s' => is_word_char c && all_word_chars s'
  end.

Definition starts_with_digit (s : string) : bool :=
  match s with
  | String c _ => is_digit_char c
  | EmptyString => false
  end.

Definition is_normal_name (s : string) : bool :=
  all_word_chars s && negb (starts_with_digit s).

(** ** The function label of the plot tab (src/tailor/plot_tab.py) *)

(** [text.partition(":")]: the text before the first colon, the colon, and
    the text after it; without a colon, the whole text and two empty
    strings. *)
Fixpoint partition_colon (text : string) : string * string * string :=
  match text with
  | EmptyString => (EmptyString, EmptyString, EmptyString)
  | String c rest =>
      if Ascii.eqb c ":"%char then (EmptyString, ":", rest)
      else
        let '(before, sep, after) := partition_colon rest in
        (String c before, sep, after)
  end.

(** [PlotTab.update_function_label], on the text of [model_func_label]: the
    argument [label_text] is what [text()] returns and the result is what
    [setText] receives. *)
Definition update_function_label (variable label_text : string) : string :=
  let '(title, _, _) := partition_colon label_text in
  title +:+ ":  " +:+ variable +:+ " =".

(** * Properties *)

Section Lists.
Context {A : Type}.

Lemma py_pop_in_range (l : list A) (i : Z) (x : A) :
  (0 <= i)%Z -> l !! Z.to_nat i = Some x ->
  py_pop l i = Ok (x, delete (Z.to_nat i) l).
Proof.
  intros Hi Hx. unfold py_pop.
  destruct (Z.ltb_spec i 0) as [Hneg|_]; [lia|].
  destruct (Z.ltb_spec i 0) as [Hneg|_]; [lia|].
  by rewrite Hx.
Qed.

Lemma py_insert_in_range (l : list A) (i : Z) (x : A) :
  (0 <= i)%Z ->
  py_insert l i x = take (Z.to_nat i) l ++ x :: drop (Z.to_nat i) l.
Proof.
  intros Hi. unfold py_insert.
  by destruct (Z.ltb_spec i 0) as [Hneg|_]; [lia|].
Qed.

Lemma lookup_take_cons_drop (l : list A) (j : nat) (x : A) :
  j ≤ length l -> (take j l ++ x :: drop j l) !! j = Some x.
Proof.
  intros Hj. rewrite lookup_app_r; rewrite length_take; [|lia].
  by replace (j - j `min` length l) with 0 by lia.
Qed.

Lemma delete_take_cons_drop (l : list A) (j : nat) (x : A) :
  j ≤ length l -> delete j (take j l ++ x :: drop j l) = l.
Proof.
  intros Hj.
  replace j with (length (take j l)) at 1 by (rewrite length_take; lia).
  by rewrite delete_middle, take_drop.
Qed.
End Lists.

Section Properties.
Context {E : Engine}.

(** ** Ordering of the columns *)

Lemma columns_reindex (labels : list string) (df df' : DataFrame) :
  df_reindex labels df = Ok df' -> columns df' = labels.
Proof.
  unfold df_reindex. repeat case_decide; intros [= <-]; [done|].
  unfold columns; simpl. rewrite <- list_fmap_compose.
  by apply list_fmap_id.
Qed.

Lemma getitem_in_columns (l : string) (df : DataFrame) :
  l ∈ columns df -> ∃ vs, df_getitem l df = Ok vs.
Proof.
  intros Hin. unfold df_getitem.
  destruct (list_find _ (cols df)) as [[i p]|] eqn:Hfind; [by eexists|].
  apply list_find_None in Hfind. rewrite Forall_forall in Hfind.
  apply list_elem_of_fmap in Hin as [p [-> Hin]].
  by destruct (Hfind p Hin).
Qed.

Lemma getitem_reindex (labels : list string) (df df' : DataFrame) (l : string) :
  df_reindex labels df = Ok df' -> l ∈ labels -> l ∈ columns df ->
  df_getitem l df' = df_getitem l df.
Proof.
  unfold df_reindex. repeat case_decide; intros [= <-]; [done|].
  intros Hl Hin. unfold df_getitem at 1; simpl.
  apply getitem_in_columns in Hin as [vs Hvs].
  set (f := λ l : string, (l, match df_getitem l df with
                              | Ok vs => vs
                              | Raise _ => replicate (nrows df) nan
                              end)).
  destruct (list_find _ (f <$> labels)) as [[i p]|] eqn:Hfind.
  - apply list_find_Some in Hfind as (Hi & Hp & _).
    apply list_lookup_fmap_Some in Hi as (k & -> & _). simpl in *. subst k.
    by rewrite Hvs.
  - apply list_find_None in Hfind.
    rewrite Forall_forall in Hfind.
    exfalso. apply (Hfind (f l)); [|done].
    apply list_elem_of_fmap. by exists l.
Qed.

(** C5.  For a table with distinct labels and positions [source] and [dest]
    inside it, [move_column(source, dest)] returns, the column that was at
    [source] is at [dest] in the resulting order, the other columns follow
    each other as before, and every column keeps its values; nothing else of
    the model changes.  On the columns [col1, col2, col3], moving 0 to 2
    gives [col2, col3, col1]. *)
Theorem move_column_final_position (s : DataModel) (source dest : Z) :
  NoDup (columns (_data s)) ->
  (0 <= source < Z.of_nat (length (columns (_data s))))%Z ->
  (0 <= dest < Z.of_nat (length (columns (_data s))))%Z ->
  ∃ s', move_column source dest s = (Ok tt, s')
    ∧ columns (_data s') !! Z.to_nat dest
        = columns (_data s) !! Z.to_nat source
    ∧ delete (Z.to_nat dest) (columns (_data s'))
        = delete (Z.to_nat source) (columns (_data s))
    ∧ (∀ l, l ∈ columns (_data s) ->
            df_getitem l (_data s') = df_getitem l (_data s))
    ∧ nrows (_data s') = nrows (_data s)
    ∧ _col_names s' = _col_names s
    ∧ _calculated_column_expression s' = _calculated_column_expression s
    ∧ _is_calculated_column_valid s' = _is_calculated_column_valid s
    ∧ _new_col_num s' = _new_col_num s
    ∧ (columns (_data s) = ["col1"; "col2"; "col3"] ->
       source = 0%Z -> dest = 2%Z ->
       columns (_data s') = ["col2"; "col3"; "col1"]).
Proof.
  intros Hnd [Hs0 Hs] [Hd0 Hd].
  set (ls := columns (_data s)) in *.
  destruct (ls !! Z.to_nat source) as [x|] eqn:Hx;
    [|apply lookup_ge_None in Hx; lia].
  pose proof (py_pop_in_range ls source x Hs0 Hx) as Hpop.
  set (rest := delete (Z.to_nat source) ls) in *.
  assert (Hlen : length rest = length ls - 1).
  { subst rest. rewrite length_delete; [lia|]. by eexists. }
  pose proof (py_insert_in_range rest dest x Hd0) as Hins.
  set (new := py_insert rest dest x) in *.
  assert (Hperm : new ≡ₚ ls).
  { rewrite Hins. rewrite <- Permutation_middle, take_drop.
    subst rest. symmetry. by apply delete_Permutation. }
  destruct (df_reindex new (_data s)) as [df|e] eqn:Hre; cycle 1.
  { unfold df_reindex in Hre. repeat case_decide; done. }
  pose proof (columns_reindex _ _ _ Hre) as Hcols.
  eexists. split.
  { unfold move_column, bind, get, lift, set_data. fold ls.
    rewrite Hpop. simpl. fold rest. fold new. rewrite Hre. reflexivity. }
  simpl. rewrite Hcols.
  split_and!; try done.
  - rewrite Hins. apply lookup_take_cons_drop. lia.
  - rewrite Hins. apply delete_take_cons_drop. lia.
  - intros l Hl. eapply getitem_reindex; [done| |done]. by rewrite Hperm.
  - unfold df_reindex in Hre. repeat case_decide; by inversion Hre.
  - intros Hc -> ->. subst new rest. rewrite Hc in Hx |- *.
    injection Hx as <-. reflexivity.
Qed.

(** ** Labels *)

Lemma col_label_inj (j k : nat) : col_label j = col_label k -> j = k.
Proof.
  unfold col_label. intros H. apply (inj pretty).
  by apply (inj (String.append "col")) in H.
Qed.

Lemma create_labels_spec (count : nat) (s : DataModel) :
  ∃ s', create_labels count s
          = (Ok (col_label <$> seq (S (_new_col_num s)) count), s')
      ∧ _data s' = _data s
      ∧ _new_col_num s' = _new_col_num s + count.
Proof.
  revert s. induction count as [|count IH]; intros s.
  - exists s. simpl. unfold ret. split_and!; [done|done|lia].
  - simpl. unfold bind at 1. unfold _create_new_column_label.
    unfold bind, get, set_new_col_num, ret; simpl.
    match goal with |- context [create_labels count ?t] =>
      destruct (IH t) as (s' & Hrun & Hdata & Hnum) end.
    exists s'. unfold bind in Hrun. rewrite Hrun. simpl in *.
    replace (_new_col_num s + 1) with (S (_new_col_num s)) by lia.
    split_and!; [done|done|lia].
Qed.

(** ** The environment of an expression *)

Lemma get_loc_lookup (l : string) (df : DataFrame) (i : nat) :
  get_loc l df = Ok i -> columns df !! i = Some l.
Proof.
  unfold get_loc.
  destruct (list_find _ (columns df)) as [[j k]|] eqn:Hfind; [|done].
  case_decide; [|done]. intros [= ->].
  by apply list_find_Some in Hfind as (Hi & -> & _).
Qed.

Lemma accessible_dict_nonempty (k : string) (rest : list string)
    (acc : gmap string (list value)) (s : DataModel) :
  accessible_dict (k :: rest) acc s = (Raise TypeError, s).
Proof. reflexivity. Qed.

(** What [_get_accessible_columns] amounts to: it never changes the model; it
    returns the empty dictionary for the leftmost column, and raises for any
    other argument. *)
Lemma get_accessible_columns_cases (col_name : string) (s : DataModel) :
  (get_loc col_name (_data s) = Ok 0
   ∧ _get_accessible_columns col_name s = (Ok ∅, s))
  ∨ (∃ i, get_loc col_name (_data s) = Ok (S i)
        ∧ _get_accessible_columns col_name s = (Raise TypeError, s))
  ∨ (∃ e, get_loc col_name (_data s) = Raise e
        ∧ _get_accessible_columns col_name s = (Raise e, s)).
Proof.
  unfold _get_accessible_columns, bind, get, lift.
  destruct (get_loc col_name (_data s)) as [[|i]|e] eqn:Hloc.
  - left. by rewrite take_0.
  - right; left. exists i. split; [done|].
    apply get_loc_lookup in Hloc.
    destruct (columns (_data s)) as [|k ks]; [done|].
    by rewrite firstn_cons.
  - right; right. by exists e.
Qed.

Lemma get_accessible_columns_leftmost (col_name : string) (s : DataModel) :
  get_loc col_name (_data s) = Ok 0 ->
  _get_accessible_columns col_name s = (Ok ∅, s).
Proof.
  intros Hloc.
  destruct (get_accessible_columns_cases col_name s)
    as [[_ Henv]|[(i & Hloc' & _)|(x & Hloc' & _)]]; [done|congruence..].
Qed.

Lemma get_accessible_columns_right_of_first (col_name : string)
    (s : DataModel) (i : nat) :
  get_loc col_name (_data s) = Ok (S i) ->
  _get_accessible_columns col_name s = (Raise TypeError, s).
Proof.
  intros Hloc.
  destruct (get_accessible_columns_cases col_name s)
    as [[Hloc' _]|[(j & _ & Henv)|(x & Hloc' & _)]]; [congruence|done|congruence].
Qed.

(** ** Recalculating one column *)

Lemma recalculate_column_no_expression (c : string) (s : DataModel) :
  expression_used c None s = None ->
  recalculate_column c None s = (Raise KeyError, s).
Proof.
  unfold expression_used, recalculate_column, bind, get, raise.
  by intros ->.
Qed.

Lemma recalculate_column_env_raises (c : string) (e : option string)
    (s : DataModel) (expr : option string) (x : exn) :
  expression_used c e s = Some expr ->
  _get_accessible_columns c s = (Raise x, s) ->
  recalculate_column c e s = (Raise x, s).
Proof.
  unfold expression_used, recalculate_column. intros Hexpr Henv.
  destruct e as [e|]; unfold bind, get, ret; simpl.
  - by rewrite Henv.
  - rewrite Hexpr. by rewrite Henv.
Qed.

Lemma recalculate_column_env (c : string) (e : option string)
    (s : DataModel) (expr : option string) (env : gmap string (list value)) :
  expression_used c e s = Some expr ->
  _get_accessible_columns c s = (Ok env, s) ->
  recalculate_column c e s =
    match aeval env expr with
    | None => (Ok false, with_valid c false s)
    | Some out =>
        match df_setitem c out (_data s) with
        | Ok df => (Ok true, with_valid c true (with_data df s))
        | Raise x => (Raise x, s)
        end
    end.
Proof.
  unfold expression_used, recalculate_column. intros Hexpr Henv.
  assert (Hgo : ∀ m : M (option string), m s = (Ok expr, s) ->
    bind m (λ expression,
      let! objects := _get_accessible_columns c in
      match aeval objects expression with
      | None =>
          let! s0 := get in
          set_valid (<[c := false]> (_is_calculated_column_valid s0)) >>
          ret false
      | Some out =>
          let! s0 := get in
          let! df := lift (df_setitem c out (_data s0)) in
          set_data df >>
          let! s' := get in
          set_valid (<[c := true]> (_is_calculated_column_valid s')) >>
          ret true
      end) s =
    match aeval env expr with
    | None => (Ok false, with_valid c false s)
    | Some out =>
        match df_setitem c out (_data s) with
        | Ok df => (Ok true, with_valid c true (with_data df s))
        | Raise x => (Raise x, s)
        end
    end).
  { intros m Hm. unfold bind at 1. rewrite Hm.
    unfold bind at 1. rewrite Henv.
    destruct (aeval env expr) as [out|]; [|done].
    unfold bind, get, lift; simpl.
    by destruct (df_setitem c out (_data s)). }
  apply Hgo. destruct e as [e|]; simpl.
  - by injection Hexpr as <-.
  - unfold bind, get, ret. by rewrite Hexpr.
Qed.

Lemma recalculate_column_right_of_first (c : string) (e : option string)
    (s : DataModel) (i : nat) :
  is_Some (expression_used c e s) ->
  get_loc c (_data s) = Ok (S i) ->
  recalculate_column c e s = (Raise TypeError, s).
Proof.
  intros [expr Hexpr] Hloc.
  eapply recalculate_column_env_raises; [done|].
  by eapply get_accessible_columns_right_of_first.
Qed.

Lemma columns_assign_values (l : string) (vs : list value)
    (cs : list (string * list value)) :
  l ∈ cs.*1 -> (assign_values l vs cs).*1 = cs.*1.
Proof.
  intros Hin. unfold assign_values. rewrite decide_True by done.
  rewrite <- list_fmap_compose. apply list_fmap_ext.
  intros i p _. simpl. by case_decide.
Qed.

Lemma assign_values_idem (l : string) (vs : list value)
    (cs : list (string * list value)) :
  assign_values l vs (assign_values l vs cs) = assign_values l vs cs.
Proof.
  destruct (decide (l ∈ cs.*1)) as [Hin|Hnin].
  - unfold assign_values at 1.
    rewrite decide_True by (by rewrite columns_assign_values).
    unfold assign_values. rewrite decide_True by done.
    rewrite <- list_fmap_compose. apply list_fmap_ext.
    intros i p _. simpl. repeat case_decide; simpl in *; congruence.
  - assert (Hcs : assign_values l vs cs = cs ++ [(l, vs)]).
    { unfold assign_values. by rewrite decide_False. }
    rewrite Hcs.
    unfold assign_values. rewrite decide_True; cycle 1.
    { rewrite fmap_app. set_solver. }
    rewrite fmap_app. simpl. rewrite decide_True by done. f_equal.
    transitivity (id <$> cs); [|apply list_fmap_id]. apply list_fmap_ext.
    intros i p Hp. simpl. case_decide; [|done].
    destruct Hnin. apply list_elem_of_fmap. exists p. split; [done|].
    by eapply list_elem_of_lookup_2.
Qed.

Lemma df_setitem_idem (l : string) (out : output value) (df df' : DataFrame) :
  df_setitem l out df = Ok df' -> df_setitem l out df' = Ok df'.
Proof.
  destruct out as [v|vs]; simpl.
  - intros [= <-]. simpl. by rewrite assign_values_idem.
  - repeat case_decide; intros [= <-]; simpl in *;
      repeat case_decide; simpl in *; try lia; by rewrite assign_values_idem.
Qed.

Lemma columns_df_setitem (l : string) (out : output value)
    (df df' : DataFrame) :
  l ∈ columns df -> df_setitem l out df = Ok df' -> columns df' = columns df.
Proof.
  unfold columns. intros Hin. destruct out as [v|vs]; simpl.
  - intros [= <-]. simpl. by apply columns_assign_values.
  - assert (Hfit : ∀ n, (prod_map id (fit_rows n) <$> cols df).*1
                        = (cols df).*1).
    { intros n. rewrite <- list_fmap_compose. by apply list_fmap_ext. }
    repeat case_decide; intros [= <-]; simpl.
    + by apply columns_assign_values.
    + rewrite columns_assign_values; by rewrite Hfit.
Qed.

Lemma get_loc_columns (l : string) (df df' : DataFrame) :
  columns df' = columns df -> get_loc l df' = get_loc l df.
Proof. unfold get_loc. by intros ->. Qed.

(** C9.  A second call of [recalculate_column] with the same arguments, made
    right after the first, returns what the first returned and leaves the
    model as the first left it: the same values in the frame and the same
    validity flags. *)
Theorem recalculate_column_idempotent (s : DataModel) (col_name : string)
    (expression : option string) :
  let first := recalculate_column col_name expression s in
  let second := recalculate_column col_name expression first.2 in
  second.1 = first.1
  ∧ _data second.2 = _data first.2
  ∧ _is_calculated_column_valid second.2 = _is_calculated_column_valid first.2
  ∧ second.2 = first.2.
Proof.
  cut (recalculate_column col_name expression
         (recalculate_column col_name expression s).2
       = recalculate_column col_name expression s).
  { intros Heq. simpl. rewrite Heq. done. }
  destruct (expression_used col_name expression s) as [expr|] eqn:Hexpr;
    cycle 1.
  { destruct expression; [done|].
    rewrite (recalculate_column_no_expression _ s) by done. simpl.
    by rewrite (recalculate_column_no_expression _ s). }
  destruct (get_accessible_columns_cases col_name s)
    as [[Hloc Henv]|[(i & Hloc & Henv)|(x & Hloc & Henv)]].
  2, 3: rewrite (recalculate_column_env_raises _ _ s expr _ Hexpr Henv); simpl;
    by rewrite (recalculate_column_env_raises _ _ s expr _ Hexpr Henv).
  rewrite (recalculate_column_env _ _ s expr _ Hexpr Henv).
  destruct (aeval ∅ expr) as [out|] eqn:Hout.
  - destruct (df_setitem col_name out (_data s)) as [df|x] eqn:Hset; simpl.
    2: { rewrite (recalculate_column_env _ _ s expr _ Hexpr Henv).
         by rewrite Hout, Hset. }
    assert (Hin : col_name ∈ columns (_data s)).
    { apply get_loc_lookup in Hloc. by eapply list_elem_of_lookup_2. }
    pose proof (columns_df_setitem _ _ _ _ Hin Hset) as Hcols.
    set (s1 := with_valid col_name true (with_data df s)).
    assert (Hloc1 : get_loc col_name (_data s1) = Ok 0).
    { simpl. by rewrite (get_loc_columns _ _ _ Hcols). }
    destruct (get_accessible_columns_cases col_name s1)
      as [[_ Henv1]|[(i & Hloc' & _)|(x & Hloc' & _)]]; [|congruence..].
    rewrite (recalculate_column_env _ _ s1 expr ∅); [|by destruct expression|done].
    rewrite Hout. simpl. rewrite (df_setitem_idem _ _ _ _ Hset).
    unfold with_valid, with_data; simpl. by rewrite insert_insert_eq.
  - set (s1 := with_valid col_name false s).
    assert (Hloc1 : get_loc col_name (_data s1) = Ok 0) by done.
    destruct (get_accessible_columns_cases col_name s1)
      as [[_ Henv1]|[(i & Hloc' & _)|(x & Hloc' & _)]]; [|congruence..].
    rewrite (recalculate_column_env _ _ s1 expr ∅); [|by destruct expression|done].
    rewrite Hout. unfold with_valid; simpl. by rewrite insert_insert_eq.
Qed.

Lemma recalculate_column_labels (c : string) (e : option string)
    (s : DataModel) :
  columns (_data (recalculate_column c e s).2) = columns (_data s)
  ∧ _new_col_num (recalculate_column c e s).2 = _new_col_num s.
Proof.
  destruct (expression_used c e s) as [expr|] eqn:Hexpr; cycle 1.
  { destruct e; [done|]. by rewrite recalculate_column_no_expression. }
  destruct (get_accessible_columns_cases c s)
    as [[Hloc Henv]|[(i & Hloc & Henv)|(x & Hloc & Henv)]].
  2, 3: by rewrite (recalculate_column_env_raises _ _ s expr _ Hexpr Henv).
  rewrite (recalculate_column_env _ _ s expr _ Hexpr Henv).
  destruct (aeval ∅ expr) as [out|]; [|done].
  destruct (df_setitem c out (_data s)) as [df|x] eqn:Hset; [|done].
  simpl. split; [|done]. eapply columns_df_setitem; [|done].
  apply get_loc_lookup in Hloc. by eapply list_elem_of_lookup_2.
Qed.

(** ** Labels along a sequence of calls *)

Lemma bind_unfold {A B : Type} (m : M A) (k : A -> M B) (s : DataModel) :
  bind m k s = match m s with
               | (Ok a, s') => k a s'
               | (Raise e, s') => (Raise e, s')
               end.
Proof. reflexivity. Qed.

Ltac unfold_M :=
  unfold bind, get, ret, raise, lift, set_data, set_col_names,
    set_expressions, set_valid, set_new_col_num, undefined_method in *.

Lemma labels_ok_within (s s' : DataModel) :
  labels_ok s ->
  NoDup (columns (_data s')) ->
  (∀ l, l ∈ columns (_data s') -> l ∈ columns (_data s)) ->
  _new_col_num s' = _new_col_num s ->
  labels_ok s' ∧ grows s s'.
Proof.
  intros [Hnd Hmint] Hnd' Hsub Hnum. split; [split; [done|]|split; [lia|]].
  - intros l Hl. rewrite Hnum. auto.
  - intros l Hl Hnl. destruct Hnl. auto.
Qed.

Lemma labels_ok_same (s s' : DataModel) :
  labels_ok s ->
  columns (_data s') = columns (_data s) ->
  _new_col_num s' = _new_col_num s ->
  labels_ok s' ∧ grows s s'.
Proof.
  intros Hok Hcols Hnum. apply labels_ok_within; [done| | |done].
  - rewrite Hcols. apply Hok.
  - intros l. by rewrite Hcols.
Qed.

Lemma columns_prod_map (f : list value -> list value)
    (cs : list (string * list value)) :
  (prod_map id f <$> cs).*1 = cs.*1.
Proof. rewrite <- list_fmap_compose. by apply list_fmap_ext. Qed.

Lemma set_value_labels (row column : nat) (v : value) (s : DataModel) :
  columns (_data (set_value row column v s).2) = columns (_data s)
  ∧ _new_col_num (set_value row column v s).2 = _new_col_num s.
Proof.
  unfold set_value. unfold_M.
  destruct (cols (_data s) !! column) as [[l vs]|] eqn:Hcol; [|done].
  case_decide; [|done]. simpl. split; [|done].
  unfold columns; simpl. rewrite list_fmap_insert. simpl.
  apply list_insert_id. by rewrite list_lookup_fmap, Hcol.
Qed.

Lemma insert_rows_labels (row count : nat) (s : DataModel) :
  columns (_data (insert_rows row count s).2) = columns (_data s)
  ∧ _new_col_num (insert_rows row count s).2 = _new_col_num s.
Proof. split; [|done]. apply columns_prod_map. Qed.

Lemma remove_rows_labels (row count : nat) (s : DataModel) :
  columns (_data (remove_rows row count s).2) = columns (_data s)
  ∧ _new_col_num (remove_rows row count s).2 = _new_col_num s.
Proof.
  unfold remove_rows. unfold_M. case_decide; [|done].
  split; [|done]. apply columns_prod_map.
Qed.

Lemma insert_each_cons (label : string) (rest : list string) (idx : nat)
    (s : DataModel) :
  insert_each idx (label :: rest) s =
    match df_insert idx label (_data s) with
    | Ok df =>
        insert_each (S idx) rest
          (set_col_names (<[label := label]> (_col_names s)) (with_data df s)).2
    | Raise e => (Raise e, s)
    end.
Proof. simpl. unfold_M. by destruct (df_insert idx label (_data s)). Qed.

Lemma insert_each_labels (labels : list string) (idx : nat) (s : DataModel) :
  NoDup (columns (_data s)) ->
  NoDup (columns (_data (insert_each idx labels s).2))
  ∧ (∀ l, l ∈ columns (_data (insert_each idx labels s).2) ->
          l ∈ columns (_data s) ∨ l ∈ labels)
  ∧ _new_col_num (insert_each idx labels s).2 = _new_col_num s.
Proof.
  revert idx s. induction labels as [|label rest IH]; intros idx s Hnd.
  { simpl. auto. }
  rewrite insert_each_cons.
  destruct (df_insert idx label (_data s)) as [df|e] eqn:Hins;
    [|simpl; auto].
  set (s1 := (set_col_names _ _).2).
  assert (Hcols1 : columns (_data s1) ≡ₚ label :: columns (_data s)
                   ∧ label ∉ columns (_data s)) .
  { unfold df_insert in Hins. repeat case_decide; try done.
    injection Hins as <-. split; [|done].
    subst s1. unfold columns; simpl. rewrite fmap_app, fmap_cons. simpl.
    rewrite <- Permutation_middle. by rewrite <- fmap_app, take_drop. }
  destruct Hcols1 as [Hcols1 Hfresh].
  destruct (IH (S idx) s1) as (Hnd' & Hsub & Hnum).
  { rewrite Hcols1. by constructor. }
  split_and!; [done| |done].
  intros l Hl. destruct (Hsub l Hl) as [Hl1|Hl1].
  - rewrite Hcols1 in Hl1. apply elem_of_cons in Hl1 as [->|Hl1].
    + right. by left.
    + by left.
  - right. by right.
Qed.

Lemma insert_columns_state (column count : nat) (s : DataModel) :
  ∃ s1, _data s1 = _data s
      ∧ _new_col_num s1 = _new_col_num s + count
      ∧ (insert_columns column count s).2
          = (insert_each column
               (col_label <$> seq (S (_new_col_num s)) count) s1).2
      ∧ ∀ labels, (insert_columns column count s).1 = Ok labels ->
                  labels = col_label <$> seq (S (_new_col_num s)) count.
Proof.
  destruct (create_labels_spec count s) as (s1 & Hrun & Hdata & Hnum).
  exists s1. split_and!; [done|done| |].
  - unfold insert_columns. unfold bind at 1. rewrite Hrun.
    unfold bind, ret. by destruct (insert_each _ _ s1) as [[[]|e] s2].
  - intros labels. unfold insert_columns. unfold bind at 1. rewrite Hrun.
    unfold bind, ret. destruct (insert_each _ _ s1) as [[[]|e] s2]; [|done].
    by intros [= <-].
Qed.

Lemma insert_columns_labels (column count : nat) (s : DataModel) :
  labels_ok s ->
  labels_ok (insert_columns column count s).2
  ∧ grows s (insert_columns column count s).2.
Proof.
  intros [Hnd Hmint].
  destruct (insert_columns_state column count s)
    as (s1 & Hdata & Hnum & -> & _).
  destruct (insert_each_labels (col_label <$> seq (S (_new_col_num s)) count)
              column s1) as (Hnd' & Hsub & Hnum'); [by rewrite Hdata|].
  rewrite Hdata in Hsub.
  assert (Hnew : ∀ l, l ∈ col_label <$> seq (S (_new_col_num s)) count ->
            ∃ k, _new_col_num s < k ≤ _new_col_num s + count ∧ l = col_label k).
  { intros l (k & -> & Hk)%list_elem_of_fmap. apply elem_of_seq in Hk.
    exists k. split; [lia|done]. }
  split; [split; [done|]|split].
  - intros l Hl. rewrite Hnum', Hnum.
    destruct (Hsub l Hl) as [Hold|Hl'].
    + destruct (Hmint l Hold) as (k & Hk & ->). exists k. split; [lia|done].
    + destruct (Hnew l Hl') as (k & Hk & ->). exists k. split; [lia|done].
  - lia.
  - intros l Hl Hnl. rewrite Hnum', Hnum.
    destruct (Hsub l Hl) as [Hold|Hl']; [done|]. by apply Hnew.
Qed.

Lemma remove_columns_labels (column count : nat) (s : DataModel) :
  labels_ok s ->
  labels_ok (remove_columns column count s).2
  ∧ grows s (remove_columns column count s).2.
Proof.
  intros Hok. unfold remove_columns, recalculate_all_columns. unfold_M. simpl.
  set (ls := take count (drop column (columns (_data s)))).
  assert (Hsub : columns (df_drop ls (_data s))
                 `sublist_of` columns (_data s)).
  { unfold columns, df_drop; simpl. apply fmap_sublist, sublist_filter. }
  apply labels_ok_within; [done| | |done]; simpl.
  - eapply sublist_NoDup; [apply Hok|done].
  - intros l Hl. by eapply elem_of_sublist.
Qed.

Lemma py_pop_Permutation {A : Type} (l rest : list A) (i : Z) (x : A) :
  py_pop l i = Ok (x, rest) -> l ≡ₚ x :: rest.
Proof.
  unfold py_pop.
  set (j := if (i <? 0)%Z then (i + Z.of_nat (length l))%Z else i).
  destruct (j <? 0)%Z; [done|].
  destruct (l !! Z.to_nat j) as [y|] eqn:Hx; [|done].
  intros [= <- <-]. by apply delete_Permutation.
Qed.

Lemma py_insert_Permutation {A : Type} (l : list A) (i : Z) (x : A) :
  py_insert l i x ≡ₚ x :: l.
Proof.
  unfold py_insert. by rewrite <- Permutation_middle, take_drop.
Qed.

Lemma move_column_labels (source dest : Z) (s : DataModel) :
  labels_ok s ->
  labels_ok (move_column source dest s).2
  ∧ grows s (move_column source dest s).2.
Proof.
  intros Hok. unfold move_column. unfold_M.
  destruct (py_pop (columns (_data s)) source) as [[x rest]|e] eqn:Hpop;
    [|by apply labels_ok_same].
  simpl.
  destruct (df_reindex _ (_data s)) as [df|e] eqn:Hre;
    [|by apply labels_ok_same].
  apply columns_reindex in Hre. apply py_pop_Permutation in Hpop.
  assert (Hperm : columns df ≡ₚ columns (_data s)).
  { by rewrite Hre, py_insert_Permutation, Hpop. }
  apply labels_ok_within; [done| | |done]; simpl.
  - rewrite Hperm. apply Hok.
  - intros l. by rewrite Hperm.
Qed.

Lemma insert_calculated_column_state (column : nat) (s : DataModel) :
  columns (_data (insert_calculated_column column s).2)
    = columns (_data (insert_columns column 1 s).2)
  ∧ _new_col_num (insert_calculated_column column s).2
    = _new_col_num (insert_columns column 1 s).2.
Proof.
  unfold insert_calculated_column.
  rewrite !(bind_unfold (insert_columns column 1)).
  destruct (insert_columns column 1 s) as [[labels|e] s1]; [|done].
  destruct labels as [|label [|]]; done.
Qed.

Lemma insert_calculated_column_labels (column : nat) (s : DataModel) :
  labels_ok s ->
  labels_ok (insert_calculated_column column s).2
  ∧ grows s (insert_calculated_column column s).2.
Proof.
  intros Hok.
  destruct (insert_calculated_column_state column s) as [Hcols Hnum].
  destruct (insert_columns_labels column 1 s Hok) as [Hok' Hgrows].
  unfold labels_ok, grows. rewrite Hcols, Hnum. done.
Qed.

Lemma rename_column_labels (label name : string) (s : DataModel) :
  columns (_data (rename_column label name s).2) = columns (_data s)
  ∧ _new_col_num (rename_column label name s).2 = _new_col_num s.
Proof.
  unfold rename_column, get_column_name, normalize_column_name. unfold_M.
  by destruct (_col_names s !! label).
Qed.

Lemma update_column_expression_unfold (col_idx expression : string)
    (s : DataModel) :
  update_column_expression col_idx expression s =
    match _col_names s !! col_idx with
    | None => (Raise KeyError, s)
    | Some col_name =>
        if bool_decide (is_Some (_calculated_column_expression s !! col_idx))
        then
          match recalculate_column col_name (Some expression)
                  (set_expressions
                     (<[col_name := Some expression]>
                        (_calculated_column_expression s)) s).2 with
          | (Ok true, s2) => (Raise AttributeError, s2)
          | (Ok false, s2) => (Ok tt, s2)
          | (Raise x, s2) => (Raise x, s2)
          end
        else (Ok tt, s)
    end.
Proof.
  unfold update_column_expression, get_column_name, is_calculated_column,
    show_status.
  unfold_M.
  destruct (_col_names s !! col_idx) as [col_name|]; [|done].
  case_bool_decide; [|done]. cbv beta iota.
  by destruct (recalculate_column col_name (Some expression) _)
    as [[[]|e] s2].
Qed.

Lemma update_column_expression_labels (col_idx expression : string)
    (s : DataModel) :
  columns (_data (update_column_expression col_idx expression s).2)
    = columns (_data s)
  ∧ _new_col_num (update_column_expression col_idx expression s).2
    = _new_col_num s.
Proof.
  rewrite update_column_expression_unfold.
  destruct (_col_names s !! col_idx) as [col_name|]; [|done].
  case_bool_decide; [|done].
  match goal with |- context [recalculate_column col_name _ ?t] =>
    set (s1 := t) end.
  pose proof (recalculate_column_labels col_name (Some expression) s1)
    as [Hcols Hnum].
  by destruct (recalculate_column col_name (Some expression) s1)
    as [[[]|e] s2].
Qed.

Lemma call_labels (o : op) (s : DataModel) :
  labels_ok s -> labels_ok (step s o) ∧ grows s (step s o).
Proof.
  intros Hok. unfold step.
  destruct o; simpl.
  - by apply labels_ok_same; [|apply set_value_labels..].
  - by apply labels_ok_same; [|apply insert_rows_labels..].
  - by apply labels_ok_same; [|apply remove_rows_labels..].
  - unfold discard. rewrite bind_unfold.
    pose proof (insert_columns_labels column count s Hok).
    by destruct (insert_columns column count s) as [[?|?] ?].
  - by apply remove_columns_labels.
  - by apply move_column_labels.
  - by apply insert_calculated_column_labels.
  - unfold discard. rewrite bind_unfold.
    pose proof (rename_column_labels label name s) as [? ?].
    destruct (rename_column label name s) as [[?|?] ?];
      by apply labels_ok_same.
  - by apply labels_ok_same; [|apply update_column_expression_labels..].
  - unfold discard. rewrite bind_unfold.
    pose proof (recalculate_column_labels col_name expression s) as [? ?].
    destruct (recalculate_column col_name expression s) as [[?|?] ?];
      by apply labels_ok_same.
  - by apply labels_ok_same.
  - by apply labels_ok_same.
  - by apply labels_ok_same.
  - by apply labels_ok_same.
Qed.

Lemma grows_trans (s1 s2 s3 : DataModel) :
  grows s1 s2 -> grows s2 s3 -> grows s1 s3.
Proof.
  intros [Hn12 Hl12] [Hn23 Hl23]. split; [lia|].
  intros l Hl3 Hnl1.
  destruct (decide (l ∈ columns (_data s2))) as [Hl2|Hnl2].
  - destruct (Hl12 l Hl2 Hnl1) as (k & Hk & ->). exists k. split; [lia|done].
  - destruct (Hl23 l Hl3 Hnl2) as (k & Hk & ->). exists k. split; [lia|done].
Qed.

Lemma run_labels (os : list op) (s : DataModel) :
  labels_ok s -> labels_ok (run os s) ∧ grows s (run os s).
Proof.
  revert s. induction os as [|o os IH]; intros s Hok.
  - split; [done|]. split; [done|]. by intros l Hl Hnl.
  - simpl. destruct (call_labels o s Hok) as [Hok1 Hgrows1].
    destruct (IH (step s o) Hok1) as [Hok2 Hgrows2].
    split; [done|]. by eapply grows_trans.
Qed.

Lemma labels_ok_init : labels_ok init.
Proof. split; [constructor|]. by intros l Hl%elem_of_nil. Qed.

(** C8.  Start from a new model and make any calls, then any further calls.
    At the end the labels of the columns are pairwise distinct, and each is
    [col<k>] for a counter value [k] reached so far.  The counter never goes
    down.  A label that appears during the further calls is made from a
    counter value above the one reached before them, so a label handed out
    earlier that has left the table does not come back.  And whenever
    [insert_columns] returns, its labels are [col<n+1>] ... [col<n+count>]
    for the counter value [n] it found. *)
Theorem labels_unique_and_never_reused (before after : list op) :
  let s := run before init in
  let s' := run after s in
  NoDup (columns (_data s'))
  ∧ (∀ l, l ∈ columns (_data s') ->
          ∃ k, 1 ≤ k ≤ _new_col_num s' ∧ l = col_label k)
  ∧ _new_col_num s ≤ _new_col_num s'
  ∧ (∀ l, l ∈ columns (_data s') -> l ∉ columns (_data s) ->
          ∃ k, _new_col_num s < k ≤ _new_col_num s' ∧ l = col_label k)
  ∧ (∀ k, k ≤ _new_col_num s -> col_label k ∉ columns (_data s) ->
          col_label k ∉ columns (_data s'))
  ∧ (∀ column count labels,
       (insert_columns column count s').1 = Ok labels ->
       labels = col_label <$> seq (S (_new_col_num s')) count).
Proof.
  intros s s'.
  destruct (run_labels before init labels_ok_init) as [Hok _].
  destruct (run_labels after s Hok) as [[Hnd Hmint] [Hnum Hnew]].
  fold s' in Hnd, Hmint, Hnum, Hnew.
  split_and!; [done|done|done|done| |].
  - intros k Hk Hgone Hback.
    destruct (Hnew _ Hback Hgone) as (k' & Hk' & Heq).
    apply col_label_inj in Heq. lia.
  - intros column count labels Hret.
    destruct (insert_columns_state column count s') as (_ & _ & _ & _ & Hlabels).
    by apply Hlabels.
Qed.

(** ** Validity of a column without bookkeeping *)

(** C10.  For a label without an entry in the calculated-column dictionary,
    [is_column_valid] returns [True] and raises nothing, whatever the frame
    holds: no hypothesis asks for a column with that label to exist. *)
Theorem is_column_valid_without_entry (s : DataModel) (label : string) :
  _calculated_column_expression s !! label = None ->
  is_column_valid label s = (Ok true, s).
Proof.
  intros Hnone.
  unfold is_column_valid, is_calculated_column, bind, get, ret.
  rewrite Hnone. rewrite bool_decide_eq_false_2; [done|].
  by intros [? ?].
Qed.
End Properties.

Lemma move_column_final_position_witness :
  ∃ s', move_column 0 2 bare_bones_data = (Ok tt, s')
      ∧ columns (_data s') = ["col2"; "col3"; "col1"].
Proof.
  destruct (move_column_final_position bare_bones_data 0 2)
    as (s' & Hrun & _ & _ & _ & _ & _ & _ & _ & _ & Hscenario).
  - apply (bool_decide_unpack _). vm_compute. exact I.
  - vm_compute. split; [discriminate | reflexivity].
  - vm_compute. split; [discriminate | reflexivity].
  - exists s'. split; [exact Hrun | by apply Hscenario].
Defined.

Lemma is_column_valid_without_entry_witness :
  is_column_valid "doesnotexist" bare_bones_data = (Ok true, bare_bones_data).
Proof.
  apply (is_column_valid_without_entry bare_bones_data "doesnotexist").
  reflexivity.
Defined.

(** ** Where the code departs from its tests *)

(** C1.  [update_column_expression] recalculates the one column it is given
    and no column to its right.  On [two_calculated], giving [col1] the
    expression [2] stores the new values of [col1] (and then fails on the
    undefined [show_status]); [col2], whose expression is [col1], keeps its
    NaN values and its invalid flag, although its expression evaluates to
    the new values of [col1] in the environment made of that column.  On
    [both_valid], giving [col1] an expression that does not parse returns
    and marks [col1] invalid; [col2] stays marked valid, although its
    expression no longer evaluates once [col1] is left out of the
    environment. *)
Theorem update_column_expression_no_cascade :
  let r := update_column_expression "col1" "2" two_calculated in
  let r' := update_column_expression "col1" "y *" both_valid in
  r.1 = Raise AttributeError
  ∧ df_getitem "col1" (_data r.2) = Ok (floats [2; 2]%Z)
  ∧ _is_calculated_column_valid r.2 !! "col1" = Some true
  ∧ _calculated_column_expression r.2 !! "col2" = Some (Some "col1")
  ∧ df_getitem "col2" (_data r.2) = Ok [None; None]
  ∧ _is_calculated_column_valid r.2 !! "col2" = Some false
  ∧ toy_aeval {[ "col1" := floats [2; 2]%Z ]} (Some "col1")
      = Some (Array (floats [2; 2]%Z))
  ∧ r'.1 = Ok tt
  ∧ _is_calculated_column_valid r'.2 !! "col1" = Some false
  ∧ _calculated_column_expression r'.2 !! "col2" = Some (Some "col1")
  ∧ _is_calculated_column_valid r'.2 !! "col2" = Some true
  ∧ toy_aeval ∅ (Some "col1") = None.
Proof. intros r r'. split_and!; vm_compute; reflexivity. Qed.

(** C2.  On [two_calculated], recalculating [col2] with an expression that
    does not parse raises [TypeError] out of [recalculate_column] and leaves
    the model as it was, validity flag included: the exception comes from
    [_get_accessible_columns], before the [try] block is entered.  The
    interpreter does fail on that expression, with or without [col1] in the
    environment.  For the leftmost column the [try] block is reached and
    behaves as documented: on [both_valid], the same expression makes the
    call on [col1] return [False], keep the values and clear the flag, and the
    expression [7] makes it return [True] with the values stored. *)
Theorem recalculate_column_raises_type_error :
  let r := recalculate_column "col1" (Some "7") both_valid in
  let r' := recalculate_column "col1" (Some "y *") both_valid in
  recalculate_column "col2" (Some "y *") two_calculated
    = (Raise TypeError, two_calculated)
  ∧ toy_aeval ∅ (Some "y *") = None
  ∧ toy_aeval {[ "col1" := floats [1; 1]%Z ]} (Some "y *") = None
  ∧ r'.1 = Ok false
  ∧ df_getitem "col1" (_data r'.2) = Ok (floats [1; 1]%Z)
  ∧ _is_calculated_column_valid r'.2 !! "col1" = Some false
  ∧ r.1 = Ok true
  ∧ df_getitem "col1" (_data r.2) = Ok (floats [7; 7]%Z)
  ∧ _is_calculated_column_valid r.2 !! "col1" = Some true.
Proof. 
  intros r r'. split_and!; [|vm_compute; reflexivity..].
  apply (recalculate_column_right_of_first _ _ _ 0);
    [by eexists | vm_compute; reflexivity].
 Qed.

(** C3.  On the fixture [calc_model], [_get_accessible_columns] raises
    [TypeError] for [col3], which has two valid columns to its left, where
    the tests expect a dictionary with the names [x] and [y]; only for the
    leftmost column does it return, with the empty dictionary.
    Recalculating [col2] with the expression [col3 ** 2] raises the same
    [TypeError] and leaves [col2] marked valid. *)
Theorem get_accessible_columns_raises_type_error :
  _get_accessible_columns "col3" calc_model = (Raise TypeError, calc_model)
  ∧ _get_accessible_columns "col1" calc_model = (Ok ∅, calc_model)
  ∧ recalculate_column "col2" (Some "col3 ** 2") calc_model
      = (Raise TypeError, calc_model)
  ∧ _is_calculated_column_valid calc_model !! "col2" = Some true.
Proof. 
  split_and!.
  - apply (get_accessible_columns_right_of_first _ _ 1). vm_compute. reflexivity.
  - apply get_accessible_columns_leftmost. vm_compute. reflexivity.
  - apply (recalculate_column_right_of_first _ _ _ 0);
      [by eexists | vm_compute; reflexivity].
  - vm_compute. reflexivity.
 Qed.

(** C4.  On the fixture [bare_bones_data], where [col3] is named [z] and
    holds the stored expression [col2 + 5]: [get_column_expression] returns
    the stored text as it is, labels included; [update_column_expression]
    with the expression [x + 1] leaves the entry of [col3] alone and files
    the text, names included, under the key [z], then raises [KeyError]
    because no column is labelled [z].  On [calc_model] the empty expression
    of [col5] is returned as the empty string. *)
Theorem expressions_are_not_translated :
  let r := update_column_expression "col3" "x + 1" bare_bones_data in
  (get_column_expression "col3" bare_bones_data).1 = Ok (Some "col2 + 5")
  ∧ r.1 = Raise KeyError
  ∧ _calculated_column_expression r.2 !! "col3" = Some (Some "col2 + 5")
  ∧ _calculated_column_expression r.2 !! "z" = Some (Some "x + 1")
  ∧ (get_column_expression "col5" calc_model).1 = Ok (Some EmptyString).
Proof. intros r. split_and!; vm_compute; reflexivity. Qed.

(** C6.  On the fixture [bare_bones_data] and a parsed file with the columns
    [col1], [t], [col3] and four rows, [read_and_concat_csv] raises
    [AttributeError] at its first statement and leaves the model as it was:
    five rows, the old order, [col3] calculated.  The frame that the pandas
    calls of the method build does have four rows and the columns of the
    file first; but storing it changes nothing else, so [col3] would still
    count as calculated. *)
Theorem read_and_concat_csv_keeps_calculated :
  let merged :=
    with_data
      (concat_and_cut csv_frame
         (df_drop (columns csv_frame) (_data bare_bones_data)))
      bare_bones_data in
  read_and_concat_csv csv_frame bare_bones_data
    = (Raise AttributeError, bare_bones_data)
  ∧ (is_calculated_column "col3" bare_bones_data).1 = Ok true
  ∧ nrows (_data bare_bones_data) = 5
  ∧ columns (_data merged) = ["col1"; "t"; "col3"; "col2"]
  ∧ nrows (_data merged) = 4
  ∧ df_getitem "col2" (_data merged) = Ok (floats [6; 7; 8; 9]%Z)
  ∧ (is_calculated_column "col3" merged).1 = Ok true.
Proof. 
  intros merged. split_and!; [reflexivity|vm_compute; reflexivity..].
 Qed.

(** C7.  On the fixture [bare_bones_data], renaming [col1] to [t null] sets
    the name of [col1] to [t_null] and touches neither the frame nor the
    expressions, but the call returns [None], not the new name.  The
    normalization itself gives [_1x] for [1x] and [t_x] for [t x]. *)
Theorem rename_column_returns_none :
  let r := rename_column "col1" "t null" bare_bones_data in
  r.1 = Ok None
  ∧ _col_names r.2 !! "col1" = Some "t_null"
  ∧ _data r.2 = _data bare_bones_data
  ∧ _calculated_column_expression r.2
      = _calculated_column_expression bare_bones_data
  ∧ normalize_name "1x" = "_1x"
  ∧ normalize_name "t x" = "t_x".
Proof. 
  intros r. split_and!; [vm_compute; reflexivity..|reflexivity|reflexivity].
 Qed.

(** * Further properties *)

(** ** Column names *)

Lemma is_word_char_underscore : is_word_char "_" = true.
Proof. reflexivity. Qed.

Lemma is_digit_is_word (c : ascii) : is_digit_char c = true -> is_word_char c = true.
Proof. unfold is_word_char. by intros ->. Qed.

Lemma all_word_chars_replace (s : string) : all_word_chars (replace_non_word s) = true.
Proof.
  induction s as [|c s IH]; [done|]. simpl. rewrite IH, andb_true_r.
  by destruct (is_word_char c) eqn:Hc.
Qed.

Lemma replace_non_word_id (s : string) :
  all_word_chars s = true -> replace_non_word s = s.
Proof.
  induction s as [|c s IH]; [done|]. simpl.
  intros [Hc Hs]%andb_true_iff. by rewrite Hc, IH.
Qed.

Lemma normalize_name_normal (name : string) :
  is_normal_name (normalize_name name) = true.
Proof.
  unfold is_normal_name, normalize_name.
  destruct name as [|c rest]; [done|].
  destruct (is_digit_char c) eqn:Hd.
  - cbn [all_word_chars starts_with_digit]. rewrite all_word_chars_replace.
    reflexivity.
  - rewrite all_word_chars_replace. simpl.
    destruct (is_word_char c) eqn:Hw; [by rewrite Hd|done].
Qed.

Lemma normalize_name_normal_id (name : string) :
  is_normal_name name = true -> normalize_name name = name.
Proof.
  unfold is_normal_name, normalize_name.
  intros [Hw Hd]%andb_true_iff. apply negb_true_iff in Hd.
  destruct name as [|c rest]; [done|]. simpl in Hd. rewrite Hd.
  by apply replace_non_word_id.
Qed.


(** X2.  A name that is already made of word characters and does not start
    with a digit is left as it is. *)
Theorem normalize_name_fixes_normal (name : string) :
  is_normal_name name = true -> normalize_name name = name.
Proof. apply normalize_name_normal_id. Qed.

(** X3.  Normalizing twice gives the same name as normalizing once. *)
Theorem normalize_name_idempotent (name : string) :
  normalize_name (normalize_name name) = normalize_name name.
Proof. apply normalize_name_normal_id, normalize_name_normal. Qed.

Lemma normalize_name_fixes_normal_witness :
  is_normal_name "t_null" = true ∧ normalize_name "t_null" = "t_null".
Proof.
  split; [reflexivity|].
  apply (normalize_name_fixes_normal "t_null"). reflexivity.
Defined.

(** ** The function label of the plot tab *)

Lemma partition_colon_title (text rest : string) :
  partition_colon ((partition_colon text).1.1 +:+ String ":" rest)
  = ((partition_colon text).1.1, ":", rest).
Proof.
  induction text as [|c text IH]; [done|]. simpl.
  destruct (Ascii.eqb c ":") eqn:Hc; [done|].
  destruct (partition_colon text) as [[before sep] after] eqn:Hp. simpl in *.
  by rewrite Hc, IH.
Qed.

(** X4.  Setting the function label for one variable and then for another
    gives the label that setting it for the second alone gives: the title in
    front of the first colon survives every update. *)
Theorem update_function_label_twice (v1 v2 label_text : string) :
  update_function_label v2 (update_function_label v1 label_text)
  = update_function_label v2 label_text.
Proof.
  unfold update_function_label at 2.
  destruct (partition_colon label_text) as [[title sep] after] eqn:Hp.
  unfold update_function_label.
  pose proof (partition_colon_title label_text ("  " +:+ v1 +:+ " =")) as Ht.
  rewrite Hp in Ht. cbn [fst] in Ht.
  change (title +:+ ":  " +:+ v1 +:+ " =")
    with (title +:+ String ":" ("  " +:+ v1 +:+ " =")).
  rewrite Ht. by rewrite Hp.
Qed.

Ltac unfold_model :=
  unfold bind, get, ret, raise, lift, set_data, set_col_names,
    set_expressions, set_valid, set_new_col_num, undefined_method in *.

Section MoreProperties.
Context {E : Engine}.

(** ** Renaming *)

(** X5.  For a label that has a name, [rename_column] returns [None], after
    which [get_column_name] gives the normalized new name for that label and
    the old names for all other labels; the frame, the expressions, the
    validity flags and the counter stay as they were. *)
Theorem rename_then_get_column_name (s : DataModel) (label name : string) :
  is_Some (_col_names s !! label) ->
  let r := rename_column label name s in
  r.1 = Ok None
  ∧ get_column_name label r.2 = (Ok (normalize_name name), r.2)
  ∧ (∀ l, l ≠ label -> (get_column_name l r.2).1 = (get_column_name l s).1)
  ∧ _data r.2 = _data s
  ∧ _calculated_column_expression r.2 = _calculated_column_expression s
  ∧ _is_calculated_column_valid r.2 = _is_calculated_column_valid s
  ∧ _new_col_num r.2 = _new_col_num s.
Proof.
  intros [old Hold]. unfold rename_column, get_column_name, normalize_column_name.
  unfold_model. rewrite Hold. simpl. rewrite lookup_insert_eq.
  split_and!; try done.
  intros l Hl. rewrite lookup_insert_ne by done.
  by destruct (_col_names s !! l).
Qed.

(** X6.  For a label without a name, [rename_column] raises [KeyError] and
    changes nothing. *)
Theorem rename_unknown_label (s : DataModel) (label name : string) :
  _col_names s !! label = None ->
  rename_column label name s = (Raise KeyError, s).
Proof.
  intros Hnone. unfold rename_column, get_column_name. unfold_model.
  by rewrite Hnone.
Qed.

(** ** Reading a CSV file *)

(** ** Inserting columns *)

Lemma with_counter_same (s : DataModel) : with_counter (_new_col_num s) s = s.
Proof. by destruct s. Qed.

Lemma create_labels_state (count : nat) (s : DataModel) :
  create_labels count s
  = (Ok (next_labels count s), with_counter (_new_col_num s + count) s).
Proof.
  unfold next_labels. revert s. induction count as [|count IH]; intros s.
  - simpl. unfold ret. by rewrite Nat.add_0_r, with_counter_same.
  - simpl. unfold bind at 1. unfold _create_new_column_label.
    unfold bind at 1. unfold get. unfold bind at 1. unfold set_new_col_num.
    unfold bind at 1. unfold ret at 1. unfold bind at 1.
    rewrite IH. unfold ret. simpl.
    replace (_new_col_num s + 1) with (S (_new_col_num s)) by lia.
    f_equal. unfold with_counter; simpl. f_equal. lia.
Qed.

Lemma take_insert_middle {A : Type} (l : list A) (idx : nat) (x : A) :
  idx ≤ length l ->
  take (S idx) (take idx l ++ x :: drop idx l) = take idx l ++ [x]
  ∧ drop (S idx) (take idx l ++ x :: drop idx l) = drop idx l.
Proof.
  intros Hidx.
  assert (Hlen : length (take idx l) = idx) by (rewrite length_take; lia).
  split.
  - rewrite take_app_ge by lia. rewrite Hlen.
    replace (S idx - idx) with 1 by lia. by rewrite firstn_cons, take_0.
  - rewrite drop_app_ge by lia. rewrite Hlen.
    by replace (S idx - idx) with 1 by lia.
Qed.

Lemma insert_each_spec (labels : list string) (idx : nat) (s : DataModel) :
  NoDup labels ->
  Forall (λ l, l ∉ columns (_data s)) labels ->
  idx ≤ length (cols (_data s)) ->
  ∃ s', insert_each idx labels s = (Ok tt, s')
      ∧ nrows (_data s') = nrows (_data s)
      ∧ cols (_data s')
        = take idx (cols (_data s)) ++ nan_columns labels (_data s)
            ++ drop idx (cols (_data s))
      ∧ (∀ l, _col_names s' !! l
              = if decide (l ∈ labels) then Some l else _col_names s !! l)
      ∧ _calculated_column_expression s' = _calculated_column_expression s
      ∧ _is_calculated_column_valid s' = _is_calculated_column_valid s
      ∧ _new_col_num s' = _new_col_num s.
Proof.
  revert idx s. induction labels as [|label rest IH]; intros idx s Hnd Hfresh Hidx.
  { exists s. simpl. unfold ret. split_and!; try done.
    by rewrite take_drop. }
  apply NoDup_cons in Hnd as [Hlabel Hnd].
  apply Forall_cons in Hfresh as [Hnew Hfresh].
  rewrite insert_each_cons. unfold df_insert.
  rewrite decide_False by done. rewrite decide_True by done.
  set (s1 := (set_col_names _ _).2).
  destruct (take_insert_middle (cols (_data s)) idx
              (label, replicate (nrows (_data s)) nan) Hidx) as [Htake Hdrop].
  destruct (IH (S idx) s1) as (s' & Hrun & Hrows & Hcols & Hnames & He & Hv & Hn).
  - done.
  - apply Forall_forall. intros l Hl. rewrite Forall_forall in Hfresh.
    assert (l ≠ label) by (by intros ->).
    unfold columns; simpl. rewrite fmap_app, fmap_cons; simpl.
    rewrite <- Permutation_middle, <- fmap_app, take_drop.
    intros [?|?]%elem_of_cons; [done|]. by apply (Hfresh l).
  - simpl. rewrite length_app, length_take. simpl. rewrite length_drop. lia.
  - exists s'. rewrite Hrun. split_and!; try done.
    + rewrite Hcols. simpl. rewrite Htake, Hdrop.
      unfold nan_columns; simpl. by rewrite <- app_assoc.
    + intros l. rewrite Hnames. simpl.
      destruct (decide (l = label)) as [->|Hne].
      * rewrite decide_False by done. rewrite lookup_insert_eq.
        rewrite decide_True; [done|]. by left.
      * rewrite lookup_insert_ne by done.
        destruct (decide (l ∈ rest)) as [Hin|Hnin].
        -- rewrite decide_True; [done|]. by right.
        -- rewrite decide_False; [done|].
           by intros [?|?]%elem_of_cons.
Qed.

Lemma next_labels_NoDup (count : nat) (s : DataModel) :
  NoDup (next_labels count s).
Proof.
  apply NoDup_fmap_2_strong; [|apply NoDup_seq].
  intros j k _ _. apply col_label_inj.
Qed.

Lemma insert_columns_spec (column count : nat) (s : DataModel) :
  column ≤ length (cols (_data s)) ->
  Forall (λ l, l ∉ columns (_data s)) (next_labels count s) ->
  ∃ s', insert_columns column count s = (Ok (next_labels count s), s')
      ∧ nrows (_data s') = nrows (_data s)
      ∧ cols (_data s')
        = take column (cols (_data s))
            ++ nan_columns (next_labels count s) (_data s)
            ++ drop column (cols (_data s))
      ∧ (∀ l, _col_names s' !! l
              = if decide (l ∈ next_labels count s) then Some l
                else _col_names s !! l)
      ∧ _calculated_column_expression s' = _calculated_column_expression s
      ∧ _is_calculated_column_valid s' = _is_calculated_column_valid s
      ∧ _new_col_num s' = _new_col_num s + count.
Proof.
  intros Hcolumn Hfresh. unfold insert_columns.
  rewrite bind_unfold, create_labels_state.
  destruct (insert_each_spec (next_labels count s) column
              (with_counter (_new_col_num s + count) s))
    as (s' & Hrun & Hrows & Hcols & Hnames & He & Hv & Hn);
    [apply next_labels_NoDup|done|done|].
  exists s'. rewrite bind_unfold, Hrun. by unfold ret.
Qed.

(** X8.  When the position is at most the number of columns and the labels
    the counter hands out next are not in the frame, [insert_columns]
    returns these [count] labels in order; the new columns stand at
    positions [column] ... [column + count - 1], filled with NaN, between
    the old columns in their old order; each new label is its own name; the
    counter moves up by [count] and nothing else changes. *)
Theorem insert_columns_in_range (column count : nat) (s : DataModel) :
  column ≤ length (cols (_data s)) ->
  Forall (λ l, l ∉ columns (_data s)) (next_labels count s) ->
  ∃ s', insert_columns column count s = (Ok (next_labels count s), s')
      ∧ nrows (_data s') = nrows (_data s)
      ∧ cols (_data s')
        = take column (cols (_data s))
            ++ nan_columns (next_labels count s) (_data s)
            ++ drop column (cols (_data s))
      ∧ (∀ l, _col_names s' !! l
              = if decide (l ∈ next_labels count s) then Some l
                else _col_names s !! l)
      ∧ _calculated_column_expression s' = _calculated_column_expression s
      ∧ _is_calculated_column_valid s' = _is_calculated_column_valid s
      ∧ _new_col_num s' = _new_col_num s + count.
Proof. apply insert_columns_spec. Qed.

(** X9.  When the position lies beyond the number of columns, inserting at
    least one column raises [IndexError] and leaves the frame, the names and
    the bookkeeping alone, but the counter has already moved up by [count]:
    the labels of the failed call are never handed out again. *)
Theorem insert_columns_out_of_range (column count : nat) (s : DataModel) :
  length (cols (_data s)) < column ->
  0 < count ->
  col_label (S (_new_col_num s)) ∉ columns (_data s) ->
  insert_columns column count s
  = (Raise IndexError, with_counter (_new_col_num s + count) s).
Proof.
  intros Hcolumn Hcount Hfresh. unfold insert_columns.
  rewrite bind_unfold, create_labels_state.
  destruct count as [|count]; [lia|].
  unfold next_labels.
  change (seq (S (_new_col_num s)) (S count))
    with (S (_new_col_num s) :: seq (S (S (_new_col_num s))) count).
  rewrite fmap_cons, bind_unfold, insert_each_cons.
  unfold df_insert. rewrite decide_False by done.
  rewrite decide_False by (simpl; lia). done.
Qed.

(** X10.  When the position is at most the number of columns and the next
    label is not in the frame, [insert_calculated_column] puts one NaN column
    under that label at the position; the column then counts as calculated,
    is not valid, has no expression, and is named after its label. *)
Theorem insert_calculated_column_in_range (column : nat) (s : DataModel) :
  column ≤ length (cols (_data s)) ->
  col_label (S (_new_col_num s)) ∉ columns (_data s) ->
  let label := col_label (S (_new_col_num s)) in
  ∃ s', insert_calculated_column column s = (Ok tt, s')
      ∧ cols (_data s')
        = take column (cols (_data s))
            ++ (label, replicate (nrows (_data s)) nan)
            :: drop column (cols (_data s))
      ∧ is_calculated_column label s' = (Ok true, s')
      ∧ is_column_valid label s' = (Ok false, s')
      ∧ get_column_expression label s' = (Ok None, s')
      ∧ get_column_name label s' = (Ok label, s')
      ∧ _new_col_num s' = S (_new_col_num s).
Proof.
  intros Hcolumn Hfresh label.
  destruct (insert_columns_spec column 1 s Hcolumn)
    as (s1 & Hrun & Hrows & Hcols & Hnames & He & Hv & Hn).
  { unfold next_labels; simpl. by repeat constructor. }
  unfold insert_calculated_column. rewrite bind_unfold, Hrun.
  unfold next_labels; simpl. fold label.
  eexists. split; [reflexivity|].
  unfold is_calculated_column, is_column_valid, is_calculated_column,
    get_column_expression, get_column_name.
  unfold_model. simpl. rewrite !lookup_insert_eq. simpl.
  rewrite ?lookup_insert_eq.
  rewrite Hnames. unfold next_labels; simpl. fold label.
  rewrite decide_True by (by left).
  split_and!; try done. lia.
Qed.

(** ** Removing columns *)

Lemma filter_all {A : Type} (P : A -> Prop) `{!∀ x, Decision (P x)}
    (l : list A) :
  Forall P l -> filter P l = l.
Proof.
  induction 1 as [|x l Hx Hl IH]; [done|].
  by rewrite filter_cons_True, IH.
Qed.

Lemma filter_none {A : Type} (P : A -> Prop) `{!∀ x, Decision (P x)}
    (l : list A) :
  Forall (λ x, ¬ P x) l -> filter P l = [].
Proof.
  induction 1 as [|x l Hx Hl IH]; [done|].
  by rewrite filter_cons_False, IH.
Qed.

Lemma filter_outside_slice (cs : list (string * list value))
    (column count : nat) :
  NoDup cs.*1 ->
  filter (λ p : string * list value, p.1 ∉ take count (drop column cs.*1)) cs
  = take column cs ++ drop (column + count) cs.
Proof.
  intros Hnd.
  rewrite <- fmap_drop, <- fmap_take.
  set (A := take column cs). set (B := take count (drop column cs)).
  set (C := drop (column + count) cs).
  assert (Hcs : cs = A ++ B ++ C).
  { subst A B C. rewrite <- drop_drop. by rewrite !take_drop. }
  rewrite Hcs in Hnd. rewrite !fmap_app in Hnd.
  apply NoDup_app in Hnd as (_ & HAB & Hnd).
  apply NoDup_app in Hnd as (_ & HBC & _).
  rewrite Hcs at 1. rewrite !filter_app.
  rewrite (filter_all _ A), (filter_none _ B), (filter_all _ C); [done|..].
  - apply Forall_forall. intros p Hp Hin. apply (HBC p.1 Hin).
    apply list_elem_of_fmap. by exists p.
  - apply Forall_forall. intros p Hp Hnin. apply Hnin.
    apply list_elem_of_fmap. by exists p.
  - apply Forall_forall. intros p Hp Hin.
    apply (HAB p.1); [|set_solver].
    apply list_elem_of_fmap. by exists p.
Qed.

Lemma lookup_foldl_delete {V : Type} (ls : list string) (m : gmap string V)
    (k : string) :
  foldl (λ m l, delete l m) m ls !! k
  = if decide (k ∈ ls) then None else m !! k.
Proof.
  revert m. induction ls as [|l ls IH]; intros m; cbn [foldl].
  - rewrite decide_False; [done|]. by intros ?%elem_of_nil.
  - rewrite IH. destruct (decide (k ∈ ls)) as [Hin|Hnin].
    + rewrite decide_True; [done|]. by right.
    + destruct (decide (k = l)) as [->|Hne].
      * rewrite lookup_delete_eq. rewrite decide_True; [done|]. by left.
      * rewrite lookup_delete_ne by done.
        rewrite decide_False; [done|]. by intros [?|?]%elem_of_cons.
Qed.

Lemma remove_columns_spec (column count : nat) (s : DataModel) :
  NoDup (columns (_data s)) ->
  ∃ s', remove_columns column count s = (Ok tt, s')
      ∧ nrows (_data s') = nrows (_data s)
      ∧ cols (_data s')
        = take column (cols (_data s)) ++ drop (column + count) (cols (_data s))
      ∧ (∀ l, _calculated_column_expression s' !! l
              = if decide (l ∈ take count (drop column (columns (_data s))))
                then None else _calculated_column_expression s !! l)
      ∧ _col_names s' = _col_names s
      ∧ _is_calculated_column_valid s' = _is_calculated_column_valid s
      ∧ _new_col_num s' = _new_col_num s.
Proof.
  intros Hnd. eexists. split.
  { unfold remove_columns, recalculate_all_columns. unfold_model.
    reflexivity. }
  simpl. split_and!; try done.
  - by apply filter_outside_slice.
  - intros l. apply lookup_foldl_delete.
Qed.

(** X11.  On a frame with distinct labels, [remove_columns] never raises: it
    takes out the columns at positions [column] ... [column + count - 1]
    that exist and keeps the others in order; the removed labels lose their
    expression entry; the names and the validity flags of the removed
    columns stay in their dictionaries. *)
Theorem remove_columns_slice (column count : nat) (s : DataModel) :
  NoDup (columns (_data s)) ->
  ∃ s', remove_columns column count s = (Ok tt, s')
      ∧ nrows (_data s') = nrows (_data s)
      ∧ cols (_data s')
        = take column (cols (_data s)) ++ drop (column + count) (cols (_data s))
      ∧ (∀ l, _calculated_column_expression s' !! l
              = if decide (l ∈ take count (drop column (columns (_data s))))
                then None else _calculated_column_expression s !! l)
      ∧ _col_names s' = _col_names s
      ∧ _is_calculated_column_valid s' = _is_calculated_column_valid s
      ∧ _new_col_num s' = _new_col_num s.
Proof. apply remove_columns_spec. Qed.


(** ** Rows and cells *)

Lemma rectangular_lookup (df : DataFrame) (c : nat) (l : string)
    (vs : list value) :
  rectangular df -> cols df !! c = Some (l, vs) -> length vs = nrows df.
Proof.
  intros Hrect Hc. unfold rectangular in Hrect. rewrite Forall_forall in Hrect.
  apply (Hrect (l, vs)). by eapply list_elem_of_lookup_2.
Qed.

Lemma get_value_lookup (r c : nat) (s : DataModel) (l : string)
    (vs : list value) :
  cols (_data s) !! c = Some (l, vs) -> length vs = nrows (_data s) ->
  (get_value r c s).1 = match vs !! r with
                        | Some v => Ok v
                        | None => Raise IndexError
                        end.
Proof.
  intros Hc Hlen. unfold get_value. unfold_model. rewrite Hc.
  case_decide as Hr.
  - by destruct (vs !! r).
  - rewrite (lookup_ge_None_2 vs r); [done|lia].
Qed.

(** X13.  On a rectangular frame with at least the column looked at,
    [insert_rows(row, count)] with [row] at most the number of rows adds
    [count] rows: the cells above [row] keep their values, the cells of the
    [count] new rows are NaN, and the cells below are the old ones moved down
    by [count]. *)
Theorem insert_rows_cells (row count r c : nat) (s : DataModel) :
  rectangular (_data s) ->
  row ≤ nrows (_data s) ->
  c < length (cols (_data s)) ->
  let s' := (insert_rows row count s).2 in
  (insert_rows row count s).1 = Ok tt
  ∧ nrows (_data s') = nrows (_data s) + count
  ∧ columns (_data s') = columns (_data s)
  ∧ (get_value r c s').1
    = if decide (r < row) then (get_value r c s).1
      else if decide (r < row + count) then Ok nan
      else (get_value (r - count) c s).1.
Proof.
  intros Hrect Hrow Hc s'.
  destruct (cols (_data s) !! c) as [[l vs]|] eqn:Hlook;
    [|apply lookup_ge_None in Hlook; lia].
  pose proof (rectangular_lookup _ _ _ _ Hrect Hlook) as Hlen.
  assert (Hrows : nrows (_data s') = nrows (_data s) + count).
  { subst s'. unfold insert_rows. unfold_model. simpl.
    by destruct (cols (_data s)). }
  split_and!; [done|done|apply columns_prod_map|].
  rewrite (get_value_lookup r c s' l
             (take row vs ++ replicate count nan ++ drop row vs)); cycle 1.
  { subst s'. unfold insert_rows. unfold_model. simpl.
    by rewrite list_lookup_fmap, Hlook. }
  { rewrite Hrows, !length_app, length_take, length_replicate, length_drop.
    lia. }
  rewrite !(get_value_lookup _ c s l vs) by done.
  assert (Htake : length (take row vs) = row) by (rewrite length_take; lia).
  repeat case_decide.
  - rewrite lookup_app_l by lia. by rewrite lookup_take_lt by lia.
  - rewrite lookup_app_r by lia. rewrite Htake.
    rewrite lookup_app_l by (rewrite length_replicate; lia).
    by rewrite lookup_replicate_2 by lia.
  - rewrite lookup_app_r by lia. rewrite Htake.
    rewrite lookup_app_r by (rewrite length_replicate; lia).
    rewrite length_replicate, lookup_drop.
    by replace (row + (r - row - count)) with (r - count) by lia.
Qed.

(** X14.  On a rectangular frame with at least one column, removing the
    [count] rows that [insert_rows] has just put in at [row] gives back the
    model as it was. *)
Theorem insert_then_remove_rows (row count : nat) (s : DataModel) :
  rectangular (_data s) ->
  row ≤ nrows (_data s) ->
  cols (_data s) ≠ [] ->
  remove_rows row count (insert_rows row count s).2 = (Ok tt, s).
Proof.
  intros Hrect Hrow Hcols.
  unfold insert_rows, remove_rows. unfold_model. simpl.
  destruct s as [[n cs] names exprs valid num]. simpl in *.
  destruct cs as [|c0 cs]; [done|].
  rewrite decide_True by lia.
  do 2 f_equal. f_equal; [lia|].
  rewrite <- list_fmap_compose.
  transitivity (id <$> (c0 :: cs)); [|apply list_fmap_id].
  apply list_fmap_ext. intros i [l vs] Hi. simpl. f_equal.
  assert (Hlen : length vs = n).
  { unfold rectangular in Hrect. rewrite Forall_forall in Hrect.
    apply (Hrect (l, vs)). by eapply list_elem_of_lookup_2. }
  assert (Htake : length (take row vs) = row) by (rewrite length_take; lia).
  rewrite take_app_length' by done.
  rewrite drop_app_ge by lia. rewrite Htake.
  replace (row + count - row) with count by lia.
  rewrite drop_app_length' by (by rewrite length_replicate).
  apply take_drop.
Qed.

(** X15.  [remove_rows] asked to remove at least one row beyond the last
    one raises [KeyError] and changes nothing. *)
Theorem remove_rows_out_of_range (row count : nat) (s : DataModel) :
  0 < count ->
  nrows (_data s) < row + count ->
  remove_rows row count s = (Raise KeyError, s).
Proof.
  intros Hcount Hrow. unfold remove_rows. unfold_model.
  rewrite decide_False; [done|]. lia.
Qed.

(** X16.  On a table without columns [insert_rows] adds no row: the model
    stays as it is. *)
Theorem insert_rows_without_columns (row count : nat) (s : DataModel) :
  cols (_data s) = [] ->
  insert_rows row count s = (Ok tt, s).
Proof.
  intros Hcols. unfold insert_rows. unfold_model.
  destruct s as [[n cs] names exprs valid num]. simpl in *. by subst cs.
Qed.

(** X17.  On a rectangular frame, [set_value] at a position inside the
    table returns, after which [get_value] at that position gives the value
    written; every other cell reads as before, and the labels, the names,
    the expressions, the validity flags and the counter are untouched (no
    column is recalculated). *)
Theorem set_then_get_value (row column : nat) (v : value) (s : DataModel) :
  rectangular (_data s) ->
  row < nrows (_data s) ->
  column < length (cols (_data s)) ->
  let s' := (set_value row column v s).2 in
  (set_value row column v s).1 = Ok tt
  ∧ get_value row column s' = (Ok v, s')
  ∧ (∀ r c, (r, c) ≠ (row, column) ->
            (get_value r c s').1 = (get_value r c s).1)
  ∧ columns (_data s') = columns (_data s)
  ∧ nrows (_data s') = nrows (_data s)
  ∧ _col_names s' = _col_names s
  ∧ _calculated_column_expression s' = _calculated_column_expression s
  ∧ _is_calculated_column_valid s' = _is_calculated_column_valid s
  ∧ _new_col_num s' = _new_col_num s.
Proof.
  intros Hrect Hrow Hcolumn s'.
  destruct (cols (_data s) !! column) as [[l vs]|] eqn:Hlook;
    [|apply lookup_ge_None in Hlook; lia].
  pose proof (rectangular_lookup _ _ _ _ Hrect Hlook) as Hlen.
  assert (Hs' : s' = with_data
                  {| nrows := nrows (_data s);
                     cols := <[column := (l, <[row := v]> vs)]> (cols (_data s)) |}
                  s
                ∧ (set_value row column v s).1 = Ok tt).
  { subst s'. unfold set_value. unfold_model. rewrite Hlook.
    by rewrite decide_True. }
  destruct Hs' as [Hs' Hok]. clearbody s'. subst s'.
  assert (Hnew : cols (_data (with_data
             {| nrows := nrows (_data s);
                cols := <[column := (l, <[row := v]> vs)]> (cols (_data s)) |}
             s)) !! column = Some (l, <[row := v]> vs)).
  { simpl. apply list_lookup_insert_eq. by eapply lookup_lt_Some. }
  split_and!; try done.
  - unfold get_value. unfold_model. rewrite Hnew. simpl.
    rewrite decide_True by done.
    by rewrite list_lookup_insert_eq by lia.
  - intros r c Hne.
    destruct (decide (c = column)) as [->|Hc].
    + rewrite (get_value_lookup r column _ l (<[row := v]> vs));
        [|done|by rewrite length_insert].
      rewrite (get_value_lookup r column s l vs) by done.
      rewrite list_lookup_insert_ne; [done|]. by intros ->.
    + unfold get_value. unfold_model. simpl.
      rewrite list_lookup_insert_ne by done.
      destruct (cols (_data s) !! c) as [[? ws]|]; [|done].
      case_decide; [|done]. by destruct (ws !! r).
  - unfold columns; simpl. rewrite list_fmap_insert. simpl.
    apply list_insert_id. by rewrite list_lookup_fmap, Hlook.
Qed.

(** X18.  At a position outside the table, [get_value] and [set_value] both
    raise [IndexError], and [set_value] writes nothing. *)
Theorem cell_out_of_range (row column : nat) (v : value) (s : DataModel) :
  ¬ (row < nrows (_data s) ∧ column < length (cols (_data s))) ->
  set_value row column v s = (Raise IndexError, s)
  ∧ get_value row column s = (Raise IndexError, s).
Proof.
  intros Hout. unfold set_value, get_value. unfold_model.
  destruct (cols (_data s) !! column) as [[l vs]|] eqn:Hlook; [|done].
  apply lookup_lt_Some in Hlook.
  rewrite !decide_False; [done|lia..].
Qed.

(** ** Moving a column *)

Lemma reinsert_deleted {A : Type} (l : list A) (i : nat) (x : A) :
  l !! i = Some x ->
  take i (delete i l) ++ x :: drop i (delete i l) = l.
Proof.
  intros Hx. rewrite delete_take_drop.
  assert (Hlen : length (take i l) = i).
  { rewrite length_take. apply lookup_lt_Some in Hx. lia. }
  rewrite take_app_length', drop_app_length' by done.
  by apply take_drop_middle.
Qed.

Lemma set_data_same (s : DataModel) : set_data (_data s) s = (Ok tt, s).
Proof. by destruct s. Qed.

(** X19.  A source position beyond the last column, or below minus the
    number of columns, makes [move_column] raise [IndexError] and change
    nothing. *)
Theorem move_column_out_of_range (source dest : Z) (s : DataModel) :
  (Z.of_nat (length (columns (_data s))) <= source
   ∨ source < - Z.of_nat (length (columns (_data s))))%Z ->
  move_column source dest s = (Raise IndexError, s).
Proof.
  intros Hout. unfold move_column. unfold_model. unfold py_pop.
  set (ls := columns (_data s)) in *.
  destruct (Z.ltb_spec source 0) as [Hneg|Hpos].
  - destruct (Z.ltb_spec (source + Z.of_nat (length ls)) 0) as [_|Hj];
      [done|lia].
  - destruct (Z.ltb_spec source 0) as [?|_]; [lia|].
    rewrite lookup_ge_None_2; [done|lia].
Qed.

(** X20.  Moving a column to the position where it already stands returns
    and changes nothing. *)
Theorem move_column_same_position (i : Z) (s : DataModel) :
  (0 <= i < Z.of_nat (length (columns (_data s))))%Z ->
  move_column i i s = (Ok tt, s).
Proof.
  intros [Hi0 Hi]. unfold move_column. unfold_model.
  destruct (columns (_data s) !! Z.to_nat i) as [x|] eqn:Hx;
    [|apply lookup_ge_None in Hx; lia].
  rewrite (py_pop_in_range _ _ x Hi0 Hx). simpl.
  rewrite py_insert_in_range by done. rewrite reinsert_deleted by done.
  unfold df_reindex. rewrite decide_True by done. apply set_data_same.
Qed.

Lemma getitem_NoDup (df : DataFrame) (i : nat) (l : string)
    (vs : list value) :
  NoDup (columns df) -> cols df !! i = Some (l, vs) ->
  df_getitem l df = Ok vs.
Proof.
  intros Hnd Hi. unfold df_getitem.
  destruct (list_find _ (cols df)) as [[j [l' vs']]|] eqn:Hfind.
  - apply list_find_Some in Hfind as (Hj & Hl & _). simpl in Hl. subst l'.
    assert (i = j) as <-.
    { eapply (NoDup_lookup _ _ _ l Hnd); unfold columns;
        rewrite list_lookup_fmap; [by rewrite Hi|by rewrite Hj]. }
    rewrite Hi in Hj. by injection Hj as <-.
  - apply list_find_None in Hfind. rewrite Forall_forall in Hfind.
    destruct (Hfind (l, vs)); [by eapply list_elem_of_lookup_2|done].
Qed.

Lemma cols_rebuild (df : DataFrame) :
  NoDup (columns df) ->
  (λ l, (l, match df_getitem l df with
            | Ok vs => vs
            | Raise _ => replicate (nrows df) nan
            end)) <$> columns df
  = cols df.
Proof.
  intros Hnd. unfold columns at 1. rewrite <- list_fmap_compose.
  transitivity (id <$> cols df); [|apply list_fmap_id].
  apply list_fmap_ext. intros i [l vs] Hi. simpl.
  by rewrite (getitem_NoDup df i l vs).
Qed.

(** X21.  On a frame with distinct labels, moving a column from [source] to
    [dest] and then back from [dest] to [source] gives back the model as it
    was. *)
Theorem move_column_there_and_back (source dest : Z) (s : DataModel) :
  NoDup (columns (_data s)) ->
  (0 <= source < Z.of_nat (length (columns (_data s))))%Z ->
  (0 <= dest < Z.of_nat (length (columns (_data s))))%Z ->
  (move_column source dest s).1 = Ok tt
  ∧ move_column dest source (move_column source dest s).2 = (Ok tt, s).
Proof.
  intros Hnd [Hs0 Hs] [Hd0 Hd].
  set (ls := columns (_data s)) in *.
  destruct (ls !! Z.to_nat source) as [x|] eqn:Hx;
    [|apply lookup_ge_None in Hx; lia].
  set (rest := delete (Z.to_nat source) ls).
  assert (Hlen : length rest = length ls - 1).
  { subst rest. rewrite length_delete; [lia|]. by eexists. }
  set (new := take (Z.to_nat dest) rest ++ x :: drop (Z.to_nat dest) rest).
  assert (Hnew_x : new !! Z.to_nat dest = Some x)
    by (apply lookup_take_cons_drop; lia).
  assert (Hnew_del : delete (Z.to_nat dest) new = rest)
    by (apply delete_take_cons_drop; lia).
  assert (Hperm : new ≡ₚ ls).
  { subst new. rewrite <- Permutation_middle, take_drop.
    subst rest. symmetry. by apply delete_Permutation. }
  assert (Hfirst : ∃ df1, move_column source dest s = (Ok tt, with_data df1 s)
            ∧ df_reindex new (_data s) = Ok df1).
  { destruct (df_reindex new (_data s)) as [df1|e] eqn:Hre; cycle 1.
    { unfold df_reindex in Hre. repeat case_decide; done. }
    exists df1. split; [|done].
    unfold move_column. unfold_model. fold ls.
    rewrite (py_pop_in_range ls source x Hs0 Hx). simpl. fold rest.
    rewrite py_insert_in_range by done. fold new. by rewrite Hre. }
  destruct Hfirst as (df1 & Hrun & Hre). rewrite Hrun. split; [done|].
  pose proof (columns_reindex _ _ _ Hre) as Hcols1.
  unfold move_column. unfold_model. simpl. rewrite Hcols1.
  rewrite (py_pop_in_range new dest x Hd0 Hnew_x). simpl.
  rewrite py_insert_in_range by done. rewrite Hnew_del.
  subst rest. rewrite reinsert_deleted by done.
  assert (Hrows1 : nrows df1 = nrows (_data s)).
  { unfold df_reindex in Hre. repeat case_decide; by inversion Hre. }
  assert (Hback : df_reindex ls df1 = Ok (_data s)).
  { unfold df_reindex at 1. rewrite Hcols1.
    destruct (decide (ls = new)) as [Heq|Hne].
    - unfold df_reindex in Hre. fold ls in Hre. rewrite <- Heq in Hre.
      rewrite decide_True in Hre by done. by rewrite Hre.
    - rewrite decide_True by (by rewrite Hperm). f_equal.
      transitivity {| nrows := nrows (_data s); cols := cols (_data s) |};
        [|by destruct (_data s)].
      rewrite Hrows1. f_equal.
      rewrite <- (cols_rebuild (_data s)) by done. fold ls.
      apply list_fmap_ext. intros i l Hl. f_equal.
      assert (Hin : l ∈ ls) by (by eapply list_elem_of_lookup_2).
      rewrite (getitem_reindex new (_data s) df1 l);
        [done|done|by rewrite Hperm|done]. }
  rewrite Hback. unfold with_data; simpl. by destruct s.
Qed.

(** ** More on recalculating one column *)

Lemma get_loc_not_in (c : string) (df : DataFrame) :
  c ∉ columns df -> get_loc c df = Raise KeyError.
Proof.
  intros Hnin. unfold get_loc.
  destruct (list_find _ (columns df)) as [[i k]|] eqn:Hfind; [|done].
  apply list_find_Some in Hfind as (Hi & -> & _).
  destruct Hnin. by eapply list_elem_of_lookup_2.
Qed.

Lemma count_label_NoDup (c : string) (ls : list string) :
  NoDup ls -> c ∈ ls -> count_label c ls = 1.
Proof.
  unfold count_label. induction 1 as [|x ls Hx Hnd IH]; intros Hin.
  { by apply elem_of_nil in Hin. }
  destruct (decide (x = c)) as [->|Hne].
  - rewrite filter_cons_True by done. rewrite (filter_none _ ls); [done|].
    apply Forall_forall. by intros y Hy ->.
  - rewrite filter_cons_False by done. apply IH.
    by apply elem_of_cons in Hin as [->|Hin].
Qed.

Lemma get_loc_NoDup (c : string) (df : DataFrame) (i : nat) :
  NoDup (columns df) -> columns df !! i = Some c -> get_loc c df = Ok i.
Proof.
  intros Hnd Hi. unfold get_loc.
  destruct (list_find _ (columns df)) as [[j k]|] eqn:Hfind.
  - apply list_find_Some in Hfind as (Hj & -> & _).
    rewrite decide_True.
    + f_equal. by eapply NoDup_lookup.
    + apply count_label_NoDup; [done|]. by eapply list_elem_of_lookup_2.
  - apply list_find_None in Hfind. rewrite Forall_forall in Hfind.
    destruct (Hfind c); [by eapply list_elem_of_lookup_2|done].
Qed.

(** X22.  For a label that is not a column of the frame,
    [recalculate_column] raises [KeyError] and changes nothing, with or
    without an expression argument. *)
Theorem recalculate_unknown_column (c : string) (e : option string)
    (s : DataModel) :
  c ∉ columns (_data s) ->
  recalculate_column c e s = (Raise KeyError, s).
Proof.
  intros Hnin.
  destruct (expression_used c e s) as [expr|] eqn:Hexpr; cycle 1.
  { destruct e; [done|]. by apply recalculate_column_no_expression. }
  eapply recalculate_column_env_raises; [done|].
  destruct (get_accessible_columns_cases c s)
    as [[Hloc _]|[(i & Hloc & _)|(x & Hloc & Henv)]].
  - by rewrite get_loc_not_in in Hloc.
  - by rewrite get_loc_not_in in Hloc.
  - rewrite get_loc_not_in in Hloc by done. by injection Hloc as <-.
Qed.

(** X23.  On a frame with distinct labels, for every column that has a
    column to its left and every expression, given or stored,
    [recalculate_column] raises [TypeError] and changes nothing: the keyword
    [col_name] in the call of [is_column_valid] is rejected before anything
    is evaluated. *)
Theorem recalculate_right_of_first (c : string) (e : option string)
    (s : DataModel) (i : nat) :
  NoDup (columns (_data s)) ->
  columns (_data s) !! S i = Some c ->
  is_Some (expression_used c e s) ->
  recalculate_column c e s = (Raise TypeError, s).
Proof.
  intros Hnd Hi Hexpr.
  apply (recalculate_column_right_of_first c e s i Hexpr).
  by apply get_loc_NoDup.
Qed.

Lemma getitem_assign_values (l c : string) (vs : list value) (n n' : nat)
    (cs : list (string * list value)) :
  c ∈ cs.*1 ->
  df_getitem l {| nrows := n; cols := assign_values c vs cs |}
  = if decide (l = c) then Ok vs
    else df_getitem l {| nrows := n'; cols := cs |}.
Proof.
  intros Hin. unfold assign_values. rewrite decide_True by done.
  unfold df_getitem. simpl.
  rewrite list_find_fmap.
  rewrite (list_find_ext _ (λ p : string * list value, p.1 = l)); cycle 1.
  { intros q. simpl. by case_decide; simpl; split; intros; congruence. }
  destruct (list_find _ cs) as [[i q]|] eqn:Hfind; simpl.
  - apply list_find_Some in Hfind as (_ & Hq & _).
    repeat case_decide; simpl in *; congruence.
  - case_decide as Hl; [|done]. subst l.
    apply list_find_None in Hfind. rewrite Forall_forall in Hfind.
    apply list_elem_of_fmap in Hin as (q & -> & Hq).
    by destruct (Hfind q Hq).
Qed.

(** X24.  On a frame with distinct labels, when the leftmost column has an
    expression that evaluates to a scalar in the empty environment,
    [recalculate_column] returns [True], fills the column with that scalar
    on every row, marks it valid, and leaves the other columns, the column
    order, the names and the expressions as they were. *)
Theorem recalculate_leftmost_scalar (c : string) (e expr : option string)
    (v : value) (s : DataModel) :
  NoDup (columns (_data s)) ->
  columns (_data s) !! 0 = Some c ->
  expression_used c e s = Some expr ->
  aeval ∅ expr = Some (Scalar v) ->
  let r := recalculate_column c e s in
  r.1 = Ok true
  ∧ df_getitem c (_data r.2) = Ok (replicate (nrows (_data s)) v)
  ∧ _is_calculated_column_valid r.2 !! c = Some true
  ∧ (∀ l, l ≠ c -> df_getitem l (_data r.2) = df_getitem l (_data s))
  ∧ (∀ l, l ≠ c -> _is_calculated_column_valid r.2 !! l
                   = _is_calculated_column_valid s !! l)
  ∧ columns (_data r.2) = columns (_data s)
  ∧ nrows (_data r.2) = nrows (_data s)
  ∧ _col_names r.2 = _col_names s
  ∧ _calculated_column_expression r.2 = _calculated_column_expression s.
Proof.
  intros Hnd Hc Hexpr Hval r.
  pose proof (get_loc_NoDup c _ 0 Hnd Hc) as Hloc.
  pose proof (get_accessible_columns_leftmost c s Hloc) as Henv.
  assert (Hin : c ∈ (cols (_data s)).*1) by (by eapply list_elem_of_lookup_2).
  subst r. rewrite (recalculate_column_env c e s expr ∅ Hexpr Henv), Hval.
  simpl.
  split_and!; try done.
  - rewrite (getitem_assign_values c c _ _ (nrows (_data s))) by done.
    by rewrite decide_True.
  - by rewrite lookup_insert_eq.
  - intros l Hl.
    rewrite (getitem_assign_values l c _ _ (nrows (_data s))) by done.
    rewrite decide_False by done. by destruct (_data s).
  - intros l Hl. by rewrite lookup_insert_ne.
  - by apply columns_assign_values.
Qed.

(** X25.  On a frame with distinct labels, when the expression of the
    leftmost column fails to evaluate, [recalculate_column] returns [False]
    and marks the column invalid; the frame and everything else stay as they
    were. *)
Theorem recalculate_leftmost_failure (c : string) (e expr : option string)
    (s : DataModel) :
  NoDup (columns (_data s)) ->
  columns (_data s) !! 0 = Some c ->
  expression_used c e s = Some expr ->
  aeval ∅ expr = None ->
  recalculate_column c e s = (Ok false, with_valid c false s).
Proof.
  intros Hnd Hc Hexpr Hval.
  pose proof (get_loc_NoDup c _ 0 Hnd Hc) as Hloc.
  pose proof (get_accessible_columns_leftmost c s Hloc) as Henv.
  by rewrite (recalculate_column_env c e s expr ∅ Hexpr Henv), Hval.
Qed.

Lemma recalculate_column_result (c : string) (e : option string)
    (s : DataModel) :
  let s' := (recalculate_column c e s).2 in
  s' = s
  ∨ s' = with_valid c false s
  ∨ ∃ out df, df_setitem c out (_data s) = Ok df
            ∧ c ∈ columns (_data s)
            ∧ s' = with_valid c true (with_data df s).
Proof.
  simpl.
  destruct (expression_used c e s) as [expr|] eqn:Hexpr; cycle 1.
  { left. destruct e; [done|]. by rewrite recalculate_column_no_expression. }
  destruct (get_accessible_columns_cases c s)
    as [[Hloc Henv]|[(i & Hloc & Henv)|(x & Hloc & Henv)]].
  2, 3: left; by rewrite (recalculate_column_env_raises _ _ s expr _ Hexpr Henv).
  rewrite (recalculate_column_env _ _ s expr _ Hexpr Henv).
  destruct (aeval ∅ expr) as [out|]; [|by right; left].
  destruct (df_setitem c out (_data s)) as [df|x] eqn:Hset; [|by left].
  right; right. exists out, df. split_and!; [done| |done].
  apply get_loc_lookup in Hloc. by eapply list_elem_of_lookup_2.
Qed.

(** X26.  Whatever its arguments, [recalculate_column] leaves the order of
    the columns, the names, the stored expressions, the counter and the
    validity flags of all other labels as they were. *)
Theorem recalculate_column_footprint (c : string) (e : option string)
    (s : DataModel) :
  let s' := (recalculate_column c e s).2 in
  columns (_data s') = columns (_data s)
  ∧ _col_names s' = _col_names s
  ∧ _calculated_column_expression s' = _calculated_column_expression s
  ∧ _new_col_num s' = _new_col_num s
  ∧ (∀ l, l ≠ c -> _is_calculated_column_valid s' !! l
                   = _is_calculated_column_valid s !! l).
Proof.
  intros s'.
  destruct (recalculate_column_result c e s)
    as [Hs|[Hs|(out & df & Hset & Hin & Hs)]]; fold s' in Hs; rewrite Hs.
  - done.
  - simpl. split_and!; try done. intros l Hl. by rewrite lookup_insert_ne.
  - simpl. split_and!; try done.
    + by eapply columns_df_setitem.
    + intros l Hl. by rewrite lookup_insert_ne.
Qed.

(** ** More on expressions *)

(** X27.  For a label that has a name but no expression entry, that is, for
    a data column, [update_column_expression] returns without storing the
    expression or changing anything else. *)
Theorem update_expression_of_data_column (label expression : string)
    (s : DataModel) :
  is_Some (_col_names s !! label) ->
  _calculated_column_expression s !! label = None ->
  update_column_expression label expression s = (Ok tt, s).
Proof.
  intros [name Hname] Hnone. rewrite update_column_expression_unfold, Hname.
  rewrite bool_decide_eq_false_2; [done|]. rewrite Hnone. by intros [? ?].
Qed.

(** ** Methods that reset the model *)

(** X28.  [load_state_from_obj], [read_csv] and [read_and_concat_csv] raise
    [AttributeError] for every argument and every model, and leave the model
    as it was: each starts with a call of [beginResetModel], which the class
    does not define. *)
Theorem reset_methods_raise (save_obj : SaveObj) (import_data : DataFrame)
    (s : DataModel) :
  load_state_from_obj save_obj s = (Raise AttributeError, s)
  ∧ read_csv import_data s = (Raise AttributeError, s)
  ∧ read_and_concat_csv import_data s = (Raise AttributeError, s).
Proof. done. Qed.

(** ** Shape of the frame along a sequence of calls *)

Lemma rectangular_assign_values (c : string) (vs : list value) (n : nat)
    (cs : list (string * list value)) :
  Forall (λ p : string * list value, length p.2 = n) cs ->
  length vs = n ->
  Forall (λ p : string * list value, length p.2 = n) (assign_values c vs cs).
Proof.
  intros Hcs Hvs. unfold assign_values. case_decide.
  - apply Forall_fmap. eapply Forall_impl; [done|].
    intros p Hp. simpl. by case_decide.
  - apply Forall_app. split; [done|]. by repeat constructor.
Qed.

Lemma rectangular_df_setitem (c : string) (out : output value)
    (df df' : DataFrame) :
  rectangular df -> df_setitem c out df = Ok df' -> rectangular df'.
Proof.
  unfold rectangular. intros Hrect. destruct out as [v|vs]; simpl.
  - intros [= <-]. simpl. apply rectangular_assign_values; [done|].
    by rewrite length_replicate.
  - repeat case_decide; intros [= <-]; simpl.
    + by apply rectangular_assign_values.
    + apply rectangular_assign_values; [|done].
      apply Forall_fmap, Forall_true. intros [l ws]. simpl.
      unfold fit_rows. rewrite length_app, length_take, length_replicate. lia.
Qed.

Lemma getitem_elem_of (l : string) (vs : list value) (df : DataFrame) :
  df_getitem l df = Ok vs -> (l, vs) ∈ cols df.
Proof.
  unfold df_getitem.
  destruct (list_find _ (cols df)) as [[i [k ws]]|] eqn:Hfind; [|done].
  intros [= <-]. apply list_find_Some in Hfind as (Hi & Hk & _).
  simpl in *. subst k. by eapply list_elem_of_lookup_2.
Qed.

Lemma rectangular_reindex (labels : list string) (df df' : DataFrame) :
  rectangular df -> df_reindex labels df = Ok df' -> rectangular df'.
Proof.
  unfold rectangular, df_reindex. intros Hrect.
  repeat case_decide; intros [= <-]; [done|]. simpl.
  apply Forall_fmap, Forall_true. intros l. simpl.
  destruct (df_getitem l df) as [vs|e] eqn:Hget.
  - rewrite Forall_forall in Hrect.
    by apply (Hrect (l, vs)), getitem_elem_of.
  - by rewrite length_replicate.
Qed.

Lemma named_within (s s' : DataModel) :
  named s ->
  (∀ l, l ∈ columns (_data s') -> l ∈ columns (_data s)) ->
  (∀ l, is_Some (_col_names s !! l) -> is_Some (_col_names s' !! l)) ->
  named s'.
Proof.
  unfold named. rewrite !Forall_forall. intros Hnamed Hsub Hnames l Hl.
  by apply Hnames, Hnamed, Hsub.
Qed.

Lemma insert_each_shape (labels : list string) (idx : nat) (s : DataModel) :
  rectangular (_data s) -> named s ->
  rectangular (_data (insert_each idx labels s).2)
  ∧ named (insert_each idx labels s).2.
Proof.
  revert idx s. induction labels as [|label rest IH]; intros idx s Hrect Hnamed.
  { done. }
  rewrite insert_each_cons.
  destruct (df_insert idx label (_data s)) as [df|e] eqn:Hins; [|done].
  unfold df_insert in Hins. repeat case_decide; try done.
  injection Hins as <-. apply IH.
  - unfold rectangular in *. simpl.
    rewrite <- (take_drop idx (cols (_data s))) in Hrect.
    apply Forall_app in Hrect as [Htake Hdrop].
    apply Forall_app. split; [done|]. constructor; [|done].
    simpl. by rewrite length_replicate.
  - unfold named in *. rewrite Forall_forall in Hnamed |- *. simpl.
    intros l. unfold columns; simpl. rewrite fmap_app, fmap_cons. simpl.
    rewrite <- Permutation_middle, <- fmap_app, take_drop.
    intros [->|Hl]%elem_of_cons.
    + rewrite lookup_insert_eq. by eexists.
    + apply lookup_insert_is_Some'. right. by apply Hnamed.
Qed.

Lemma call_shape (o : op) (s : DataModel) :
  rectangular (_data s) -> named s ->
  rectangular (_data (step s o)) ∧ named (step s o).
Proof.
  intros Hrect Hnamed. unfold step. destruct o; simpl.
  - unfold set_value. unfold_model.
    destruct (cols (_data s) !! column) as [[l vs]|] eqn:Hlook; [|done].
    case_decide; [|done]. simpl. split.
    + unfold rectangular in *. simpl. apply Forall_insert; [done|]. simpl.
      rewrite length_insert. by eapply rectangular_lookup.
    + eapply named_within; [done| |done]. simpl. intros l0.
      unfold columns; simpl. rewrite list_fmap_insert. simpl.
      rewrite list_insert_id; [done|]. by rewrite list_lookup_fmap, Hlook.
  - split.
    + unfold rectangular in *. simpl.
      destruct (cols (_data s)) as [|c0 cs] eqn:Hcs; [by constructor|].
      apply Forall_fmap.
      eapply Forall_impl; [done|]. intros [l vs] Hlen. simpl in *.
      rewrite !length_app, length_take, length_replicate, length_drop. lia.
    + eapply named_within; [done| |done]. simpl. intros l.
      unfold columns; simpl. by rewrite columns_prod_map.
  - unfold remove_rows. unfold_model. case_decide; [|done]. simpl. split.
    + unfold rectangular in *. simpl. apply Forall_fmap.
      eapply Forall_impl; [done|]. intros [l vs] Hlen. simpl in *.
      rewrite !length_app, length_take, length_drop. lia.
    + eapply named_within; [done| |done]. simpl. intros l.
      unfold columns; simpl. by rewrite columns_prod_map.
  - unfold discard. rewrite bind_unfold.
    assert (Hgo : rectangular (_data (insert_columns column count s).2)
                  ∧ named (insert_columns column count s).2).
    { unfold insert_columns. rewrite bind_unfold, create_labels_state.
      rewrite bind_unfold.
      pose proof (insert_each_shape (next_labels count s) column
                    (with_counter (_new_col_num s + count) s) Hrect Hnamed).
      by destruct (insert_each _ _ _) as [[[]|?] ?]. }
    by destruct (insert_columns column count s) as [[?|?] ?].
  - unfold remove_columns, recalculate_all_columns. unfold_model. simpl.
    split.
    + unfold rectangular in *. simpl. rewrite Forall_forall in Hrect |- *.
      intros p [_ Hp]%list_elem_of_filter. by apply Hrect.
    + eapply named_within; [done| |done]. simpl. intros l.
      unfold columns; simpl.
      intros (p & -> & Hp%list_elem_of_filter)%list_elem_of_fmap.
      apply list_elem_of_fmap. exists p. tauto.
  - unfold move_column. unfold_model.
    destruct (py_pop (columns (_data s)) source) as [[x rest]|e] eqn:Hpop;
      [|done].
    simpl.
    destruct (df_reindex _ (_data s)) as [df|e] eqn:Hre; [|done]. simpl.
    split; [by eapply rectangular_reindex|].
    eapply named_within; [done| |done]. simpl. intros l.
    apply columns_reindex in Hre. apply py_pop_Permutation in Hpop.
    by rewrite Hre, py_insert_Permutation, Hpop.
  - unfold insert_calculated_column. rewrite bind_unfold.
    assert (Hgo : rectangular (_data (insert_columns column 1 s).2)
                  ∧ named (insert_columns column 1 s).2).
    { unfold insert_columns. rewrite bind_unfold, create_labels_state.
      rewrite bind_unfold.
      pose proof (insert_each_shape (next_labels 1 s) column
                    (with_counter (_new_col_num s + 1) s) Hrect Hnamed).
      by destruct (insert_each _ _ _) as [[[]|?] ?]. }
    destruct (insert_columns column 1 s) as [[labels|?] s1]; [|done].
    by destruct labels as [|label [|]].
  - unfold discard. rewrite bind_unfold.
    assert (Hgo : rectangular (_data (rename_column label name s).2)
                  ∧ named (rename_column label name s).2).
    { unfold rename_column, get_column_name, normalize_column_name.
      unfold_model. destruct (_col_names s !! label); [|done]. simpl.
      split; [done|]. eapply named_within; [done|done|]. simpl.
      intros l Hl. apply lookup_insert_is_Some'. by right. }
    by destruct (rename_column label name s) as [[?|?] ?].
  - rewrite update_column_expression_unfold.
    destruct (_col_names s !! col_idx) as [col_name|]; [|done].
    case_bool_decide; [|done].
    set (s1 := (set_expressions _ s).2).
    assert (Hgo : rectangular (_data (recalculate_column col_name
                                        (Some expression) s1).2)
                  ∧ named (recalculate_column col_name (Some expression) s1).2).
    { destruct (recalculate_column_result col_name (Some expression) s1)
        as [Hs|[Hs|(out & df & Hset & Hin & Hs)]]; rewrite Hs; try done.
      simpl. split; [by eapply rectangular_df_setitem|].
      eapply named_within; [done| |done]. simpl. intros l.
      by rewrite (columns_df_setitem _ _ _ _ Hin Hset). }
    by destruct (recalculate_column col_name (Some expression) s1)
      as [[[]|?] ?].
  - unfold discard. rewrite bind_unfold.
    assert (Hgo : rectangular (_data (recalculate_column col_name
                                        expression s).2)
                  ∧ named (recalculate_column col_name expression s).2).
    { destruct (recalculate_column_result col_name expression s)
        as [Hs|[Hs|(out & df & Hset & Hin & Hs)]]; rewrite Hs; try done.
      simpl. split; [by eapply rectangular_df_setitem|].
      eapply named_within; [done| |done]. simpl. intros l.
      by rewrite (columns_df_setitem _ _ _ _ Hin Hset). }
    by destruct (recalculate_column col_name expression s) as [[?|?] ?].
  - done.
  - done.
  - done.
  - done.
Qed.

Lemma run_shape (os : list op) (s : DataModel) :
  rectangular (_data s) -> named s ->
  rectangular (_data (run os s)) ∧ named (run os s).
Proof.
  revert s. induction os as [|o os IH]; intros s Hrect Hnamed; [done|].
  simpl. destruct (call_shape o s Hrect Hnamed) as [Hrect' Hnamed'].
  by apply IH.
Qed.

(** X29.  After any sequence of calls on a new model the frame is
    rectangular: every column holds exactly as many values as [num_rows]
    reports. *)
Theorem frame_stays_rectangular (os : list op) :
  ∀ l vs, df_getitem l (_data (run os init)) = Ok vs ->
          (num_rows (run os init)).1 = Ok (length vs).
Proof.
  intros l vs Hget.
  destruct (run_shape os init) as [Hrect _]; [by constructor..|].
  unfold rectangular in Hrect. rewrite Forall_forall in Hrect.
  unfold num_rows. unfold_model. simpl.
  by rewrite <- (Hrect (l, vs) (getitem_elem_of _ _ _ Hget)).
Qed.

(** X30.  After any sequence of calls on a new model every label of the
    frame has a name: [get_column_name] returns for it and raises
    nothing. *)
Theorem frame_labels_have_names (os : list op) :
  ∀ l, l ∈ columns (_data (run os init)) ->
       ∃ name, get_column_name l (run os init) = (Ok name, run os init).
Proof.
  intros l Hl.
  destruct (run_shape os init) as [_ Hnamed]; [by constructor..|].
  unfold named in Hnamed. rewrite Forall_forall in Hnamed.
  destruct (Hnamed l Hl) as [name Hname]. exists name.
  unfold get_column_name. unfold_model. by rewrite Hname.
Qed.

End MoreProperties.

Lemma rename_then_get_column_name_witness :
  is_Some (_col_names bare_bones_data !! "col1")
  ∧ (rename_column "col1" "t null" bare_bones_data).1 = Ok None.
Proof.
  split; [by eexists|].
  apply (rename_then_get_column_name bare_bones_data "col1" "t null").
  by eexists.
Defined.

Lemma rename_unknown_label_witness :
  rename_column "nope" "x" bare_bones_data = (Raise KeyError, bare_bones_data).
Proof.
  apply (rename_unknown_label bare_bones_data "nope" "x"). reflexivity.
Defined.

(** ** Instances on the fixtures *)

Ltac by_computation := apply (bool_decide_unpack _); vm_compute; exact I.

Lemma insert_columns_in_range_witness :
  (insert_columns 1 2 bare_bones_data).1 = Ok [col_label 4; col_label 5].
Proof.
  destruct (insert_columns_in_range 1 2 bare_bones_data) as (s' & Hrun & _).
  - simpl. lia.
  - by_computation.
  - rewrite Hrun. reflexivity.
Defined.

Lemma insert_columns_out_of_range_witness :
  insert_columns 7 2 bare_bones_data
  = (Raise IndexError,
     with_counter (_new_col_num bare_bones_data + 2) bare_bones_data).
Proof.
  apply (insert_columns_out_of_range 7 2 bare_bones_data).
  - simpl. lia.
  - lia.
  - by_computation.
Defined.

Lemma insert_calculated_column_in_range_witness :
  ∃ s', insert_calculated_column 1 bare_bones_data = (Ok tt, s')
      ∧ is_column_valid (col_label 4) s' = (Ok false, s').
Proof.
  destruct (insert_calculated_column_in_range 1 bare_bones_data)
    as (s' & Hrun & _ & _ & Hvalid & _).
  - simpl. lia.
  - by_computation.
  - exists s'. split; [exact Hrun | exact Hvalid].
Defined.

Lemma remove_columns_slice_witness :
  (remove_columns 1 2 bare_bones_data).1 = Ok tt.
Proof.
  destruct (remove_columns_slice 1 2 bare_bones_data) as (s' & Hrun & _).
  - by_computation.
  - rewrite Hrun. reflexivity.
Defined.


Lemma insert_rows_cells_witness :
  (get_value 1 0 (insert_rows 1 2 bare_bones_data).2).1 = Ok None.
Proof.
  destruct (insert_rows_cells 1 2 1 0 bare_bones_data) as (_ & _ & _ & Hcell).
  - by_computation.
  - simpl. lia.
  - simpl. lia.
  - exact Hcell.
Defined.

Lemma insert_then_remove_rows_witness :
  remove_rows 1 2 (insert_rows 1 2 bare_bones_data).2 = (Ok tt, bare_bones_data).
Proof.
  apply (insert_then_remove_rows 1 2 bare_bones_data).
  - by_computation.
  - simpl. lia.
  - discriminate.
Defined.

Lemma remove_rows_out_of_range_witness :
  remove_rows 4 3 bare_bones_data = (Raise KeyError, bare_bones_data).
Proof.
  apply (remove_rows_out_of_range 4 3 bare_bones_data); simpl; lia.
Defined.

Lemma insert_rows_without_columns_witness :
  insert_rows 0 5 (@init toy) = (Ok tt, init).
Proof. apply (insert_rows_without_columns 0 5 (@init toy)). reflexivity. Defined.

Lemma set_then_get_value_witness :
  (get_value 2 1 (set_value (E := toy) 2 1 (Some 47%Z) bare_bones_data).2).1
  = Ok (Some 47%Z).
Proof.
  destruct (set_then_get_value (E := toy) 2 1 (Some 47%Z) bare_bones_data)
    as (_ & Hget & _).
  - by_computation.
  - simpl. lia.
  - simpl. lia.
  - rewrite Hget. reflexivity.
Defined.

Lemma cell_out_of_range_witness :
  get_value 5 1 bare_bones_data = (Raise IndexError, bare_bones_data).
Proof.
  apply (cell_out_of_range (E := toy) 5 1 None bare_bones_data).
  simpl. lia.
Defined.

Lemma move_column_out_of_range_witness :
  move_column 3 0 bare_bones_data = (Raise IndexError, bare_bones_data).
Proof.
  apply (move_column_out_of_range 3 0 bare_bones_data).
  left. vm_compute. discriminate.
Defined.

Lemma move_column_same_position_witness :
  move_column 1 1 bare_bones_data = (Ok tt, bare_bones_data).
Proof.
  apply (move_column_same_position 1 bare_bones_data).
  vm_compute. split; [discriminate | reflexivity].
Defined.

Lemma move_column_there_and_back_witness :
  move_column 2 0 (move_column 0 2 bare_bones_data).2 = (Ok tt, bare_bones_data).
Proof.
  apply (move_column_there_and_back 0 2 bare_bones_data).
  - by_computation.
  - vm_compute. split; [discriminate | reflexivity].
  - vm_compute. split; [discriminate | reflexivity].
Defined.

Lemma recalculate_unknown_column_witness :
  recalculate_column "z" None bare_bones_data = (Raise KeyError, bare_bones_data).
Proof.
  apply (recalculate_unknown_column "z" None bare_bones_data). by_computation.
Defined.

Lemma recalculate_right_of_first_witness :
  recalculate_column "col2" (Some "1") both_valid = (Raise TypeError, both_valid).
Proof.
  apply (recalculate_right_of_first "col2" (Some "1") both_valid 0).
  - by_computation.
  - reflexivity.
  - by eexists.
Defined.

Lemma recalculate_leftmost_scalar_witness :
  df_getitem "col1" (_data (recalculate_column "col1" (Some "7") both_valid).2)
  = Ok (floats [7; 7]%Z).
Proof.
  destruct (recalculate_leftmost_scalar (E := toy) "col1" (Some "7")
              (Some "7") (Some 7%Z) both_valid) as (_ & Hget & _).
  - by_computation.
  - reflexivity.
  - reflexivity.
  - reflexivity.
  - exact Hget.
Defined.

Lemma recalculate_leftmost_failure_witness :
  recalculate_column "col1" (Some "y *") both_valid
  = (Ok false, with_valid "col1" false both_valid).
Proof.
  apply (recalculate_leftmost_failure "col1" (Some "y *") (Some "y *")
           both_valid).
  - by_computation.
  - reflexivity.
  - reflexivity.
  - reflexivity.
Defined.

Lemma update_expression_of_data_column_witness :
  update_column_expression "col1" "x ** 2" bare_bones_data
  = (Ok tt, bare_bones_data).
Proof.
  apply (update_expression_of_data_column "col1" "x ** 2" bare_bones_data).
  - by eexists.
  - reflexivity.
Defined.

Lemma frame_stays_rectangular_witness :
  (num_rows (run [OpInsertColumns 0 2; OpInsertRows 0 3] (@init toy))).1 = Ok 3.
Proof.
  apply (frame_stays_rectangular (E := toy)
           [OpInsertColumns 0 2; OpInsertRows 0 3] "col1" [None; None; None]).
  vm_compute. reflexivity.
Defined.

Lemma frame_labels_have_names_witness :
  ∃ name, get_column_name "col2" (run [OpInsertColumns 0 2] (@init toy))
          = (Ok name, run [OpInsertColumns 0 2] init).
Proof.
  apply (frame_labels_have_names (E := toy) [OpInsertColumns 0 2] "col2").
  by_computation.
Defined.
